(** * iRON dashboard: a shallow embedding of [app.py]'s server logic

    The development follows the server function of [app.py]: the feedback
    handler, the variable-string formatter, the fetch stage, the two
    computations that consume the fetched document (the plot and the data
    table), and the fragment of pandas they rely on (timestamp parsing,
    frame construction, column assignment and the outer join on [Time]).

    Python values are modelled as follows.
    - A [str] is a [string] whose characters are code points below 256.
    - A parsed JSON document is a [json]; a JSON object is a finite map
      from strings to documents.
    - A call that may raise returns a [pyres]; [print] only writes to the
      process's standard output and is left out. *)

From stdpp Require Import base option list gmap strings pretty sorting.
From Stdlib Require Import ZArith Ascii.

Set Warnings "-register-all".
Open Scope Z_scope.

(** ** Python values *)

Module Py.

(** A parsed JSON document, as [response.json()] returns it.  Numbers are
    carried as integers: the pipeline never computes on observation
    values, it only moves them into table cells. *)
Inductive json :=
| JNull
| JBool (b : bool)
| JNum (n : Z)
| JStr (s : string)
| JArr (l : list json)
| JObj (m : gmap string json).

(** An exception with its class name and the text [str(e)] yields. *)
Record exn := Exn { exn_class : string; exn_text : string }.

(** The outcome of evaluating Python code: a value, a raised exception,
    or [Unmodelled] where the input has a shape on which the behaviour of
    pandas is outside the fragment modelled here (scalar broadcasting,
    joins over a [Time] column that does not hold timestamps). *)
Inductive pyres (A : Type) :=
| Ret (a : A)
| Raise (e : exn)
| Unmodelled.
Arguments Ret {A} a.
Arguments Raise {A} e.
Arguments Unmodelled {A}.

#[global] Instance pyres_ret : MRet pyres := fun A a => Ret a.
#[global] Instance pyres_bind : MBind pyres := fun A B f m =>
  match m with
  | Ret a => f a
  | Raise e => Raise e
  | Unmodelled => Unmodelled
  end.

#[global] Instance pyres_fmap : FMap pyres := fun A B f m =>
  match m with
  | Ret a => Ret (f a)
  | Raise e => Raise e
  | Unmodelled => Unmodelled
  end.

Fixpoint py_mapM {A B} (f : A → pyres B) (l : list A) : pyres (list B) :=
  match l with
  | [] => Ret []
  | x :: l' => y ← f x; ys ← py_mapM f l'; Ret (y :: ys)
  end.

Definition TypeError (msg : string) : exn := Exn "TypeError" msg.
Definition AttributeError (msg : string) : exn := Exn "AttributeError" msg.
Definition ValueError (msg : string) : exn := Exn "ValueError" msg.
Definition KeyError (msg : string) : exn := Exn "KeyError" msg.

(** [bool(x)]: the truth value the [not] operator tests. *)
Definition truthy (j : json) : bool :=
  match j with
  | JNull => false
  | JBool b => b
  | JNum n => negb (n =? 0)
  | JStr s => negb (bool_decide (s = ""))
  | JArr l => negb (bool_decide (l = []))
  | JObj m => negb (bool_decide (m = ∅))
  end.

Definition is_str (s : string) (j : json) : bool :=
  match j with
  | JStr s' => bool_decide (s = s')
  | _ => false
  end.

(** [key in x] for a string [key]: key membership on a dict, element
    membership on a list, substring test on a string, [TypeError] on
    anything else. *)
Definition py_in (key : string) (x : json) : pyres bool :=
  match x with
  | JObj m => Ret (bool_decide (is_Some (m !! key)))
  | JArr l => Ret (existsb (is_str key) l)
  | JStr s => Ret (bool_decide (is_Some (String.index 0 key s)))
  | _ => Raise (TypeError "argument is not iterable")
  end.

(** [x[key]] for a string [key]. *)
Definition py_getitem (x : json) (key : string) : pyres json :=
  match x with
  | JObj m =>
      match m !! key with
      | Some v => Ret v
      | None => Raise (KeyError key)
      end
  | _ => Raise (TypeError "indices must be integers")
  end.

(** [x.get(key, default)]: only a dict has the method. *)
Definition py_get (x : json) (key : string) (dflt : json) : pyres json :=
  match x with
  | JObj m => Ret (default dflt (m !! key))
  | _ => Raise (AttributeError "object has no attribute 'get'")
  end.

Definition isinstance_list (x : json) : bool :=
  match x with
  | JArr _ => true
  | _ => false
  end.

(** [str.isspace] on the code points below 256. *)
Definition is_space (c : ascii) : bool :=
  let n := nat_of_ascii c in
  ((9 <=? n) && (n <=? 13) || (28 <=? n) && (n <=? 32)
   || (n =? 133) || (n =? 160))%nat.

Fixpoint lstrip (s : string) : string :=
  match s with
  | EmptyString => EmptyString
  | String c s' => if is_space c then lstrip s' else s
  end.

Fixpoint rstrip (s : string) : string :=
  match s with
  | EmptyString => EmptyString
  | String c s' =>
      match rstrip s' with
      | EmptyString => if is_space c then EmptyString else String c EmptyString
      | r => String c r
      end
  end.

(** [s.strip()] *)
Definition strip (s : string) : string := rstrip (lstrip s).

(** [s.split(sep)] for a one-character separator. *)
Fixpoint split (sep : ascii) (s : string) : list string :=
  match s with
  | EmptyString => [EmptyString]
  | String c s' =>
      if bool_decide (c = sep) then EmptyString :: split sep s'
      else
        match split sep s' with
        | h :: t => String c h :: t
        | [] => [String c EmptyString]
        end
  end.

(** [sep.join(l)] *)
Definition join (sep : string) (l : list string) : string := String.concat sep l.

(** How an f-string renders a value read from the environment:
    [os.getenv] yields [None] for an unset variable. *)
Definition fmt_env (v : option string) : string := default "None" v.

End Py.
Export Py.

(** ** Configuration and the outside world *)

(** The module-level values read with [os.getenv]. *)
Record config := {
  GITHUB_TOKEN : option string;
  syn_token : option string;
  REPO_OWNER : option string;
  REPO_NAME : option string;
}.

(** The arguments of one [requests.post] call. *)
Record post_request := {
  post_url : string;
  post_headers : list (string * string);
  post_json : list (string * string);
  post_timeout : option Z;
}.

(** What [requests.post] does: it returns a response (status code and
    body text) or raises. *)
Inductive post_outcome :=
| PostResponse (status_code : Z) (text : string)
| PostRaises (e : string).

(** The arguments of one [requests.get] call; [get_timeout] is [None]
    when the call passes no [timeout]. *)
Record get_request := {
  get_url : string;
  get_timeout : option Z;
}.

(** What [response.json()] does on the body. *)
Inductive json_body :=
| BodyJson (data : json)
| BodyNotJson (e : string).

(** What [requests.get] does: it returns a response or raises a
    [requests.exceptions.RequestException] (DNS failure, reset
    connection, timeout, ...).  A body that does not decode makes
    [response.json()] raise [requests.exceptions.JSONDecodeError], which
    is a [RequestException] too. *)
Inductive get_outcome :=
| GetResponse (status_code : Z) (reason : string) (body : json_body)
| GetRaises (e : string).

(** ** The feedback handler *)

(** The effects the handler performs, in program order. *)
Inductive ui_event :=
| FeedbackStatusSet (s : string)
| NotificationShow (msg : string) (type : string) (duration : option Z)
| RequestsPost (r : post_request)
| UpdateActionButton (id : string) (label : string) (disabled : bool).

(** The part of the page the handler can change. *)
Record ui_state := {
  feedback_status : string;
  submit_feedback_disabled : bool;
}.

Definition ui_step (st : ui_state) (ev : ui_event) : ui_state :=
  match ev with
  | FeedbackStatusSet s =>
      {| feedback_status := s;
         submit_feedback_disabled := submit_feedback_disabled st |}
  | UpdateActionButton id _ disabled =>
      if bool_decide (id = "submit_feedback")
      then {| feedback_status := feedback_status st;
              submit_feedback_disabled := disabled |}
      else st
  | NotificationShow _ _ _ | RequestsPost _ => st
  end.

Definition ui_run (st : ui_state) (evs : list ui_event) : ui_state :=
  foldl ui_step st evs.

(** The [requests.post] calls among the effects. *)
Definition posts (evs : list ui_event) : list post_request :=
  omap (λ ev, match ev with RequestsPost r => Some r | _ => None end) evs.

(** [submit_feedback_issue], with the text box's content and the
    behaviour of the remote tracker as arguments. *)
Definition submit_feedback_issue (cfg : config) (feedback_text : string)
    (post : post_request → post_outcome) : list ui_event :=
  let feedback := strip feedback_text in
  if bool_decide (feedback = "") then
    [ FeedbackStatusSet "Feedback is empty. Please type something first.";
      NotificationShow "Feedback is empty. Please type something first."
        "warning" (Some 4000) ]
  else
    let api_url :=
      "https://api.github.com/repos/" +:+ fmt_env (REPO_OWNER cfg) +:+ "/"
        +:+ fmt_env (REPO_NAME cfg) +:+ "/issues" in
    let headers :=
      [ ("Authorization", "token " +:+ fmt_env (GITHUB_TOKEN cfg));
        ("Accept", "application/vnd.github.v3+json") ] in
    let payload :=
      [ ("title", "User Feedback from Shiny App"); ("body", feedback) ] in
    let r := {| post_url := api_url; post_headers := headers;
                post_json := payload; post_timeout := Some 10 |} in
    RequestsPost r ::
    match post r with
    | PostResponse status_code text =>
        if status_code =? 201 then
          [ FeedbackStatusSet "Thank you! Your feedback has been submitted.";
            NotificationShow
              "Thank you! Your feedback has been submitted as a GitHub issue."
              "message" (Some 5000) ]
        else
          let msg := "Error creating issue: " +:+ pretty status_code
                       +:+ String "010" text in
          [ FeedbackStatusSet msg; NotificationShow msg "error" None ]
    | PostRaises e =>
        [ FeedbackStatusSet ("Error: " +:+ e);
          NotificationShow ("Error: " +:+ e) "error" None ]
    end
    ++ [ UpdateActionButton "submit_feedback" "Submit Feedback" false ].

(** ** The variable string *)

(** What [input.vars()] can hold: nothing, one string, or an ordered
    collection of strings. *)
Inductive raw_vars :=
| RawNone
| RawStr (s : string)
| RawTuple (l : list string)
| RawList (l : list string).

(** [not raw_vars] *)
Definition raw_falsy (raw : raw_vars) : bool :=
  match raw with
  | RawNone => true
  | RawStr s => bool_decide (s = "")
  | RawTuple l | RawList l => bool_decide (l = [])
  end.

Definition get_vars_str (raw : raw_vars) : string :=
  if raw_falsy raw then "air_temp"
  else
    match raw with
    | RawTuple l | RawList l => join "," l
    | RawStr s => s
    | RawNone => "None"
    end.

(** ** The fetch stage *)

Definition error_dict (msg : string) : json :=
  JObj {[ "Error" := JStr msg ]}.

(** [weather_data], with the string [url()] produced and the behaviour of
    the remote API as arguments.  The result pairs the [requests.get]
    calls issued, in order, with the value returned. *)
Definition weather_data (request_url : string)
    (http : get_request → get_outcome) : list get_request * pyres json :=
  if bool_decide (request_url = "") then
    ([], Ret (error_dict "Invalid API URL."))
  else
    let req := {| get_url := request_url; get_timeout := None |} in
    ([req],
     match http req with
     | GetRaises e => Ret (error_dict ("Error fetching API data: " +:+ e))
     | GetResponse status_code reason body =>
         if negb (status_code =? 200) then
           Ret (error_dict ("API Error: " +:+ pretty status_code +:+ " - "
                              +:+ reason))
         else
           match body with
           | BodyNotJson e =>
               Ret (error_dict ("Error fetching API data: " +:+ e))
           | BodyJson data =>
               has_station ← py_in "STATION" data;
               if negb has_station then
                 Ret (error_dict "Unexpected API response format.")
               else
                 station ← py_getitem data "STATION";
                 if negb (isinstance_list station) then
                   Ret (error_dict "Unexpected API response format.")
                 else Ret data
           end
     end).

(** ** The fragment of pandas the server uses *)

Module Pandas.

(** A timestamp, in nanoseconds since the epoch; [None] is [NaT], the
    missing-timestamp marker. *)
Abbreviation time := (option Z).

(** A table cell: a timestamp, an observation value, or [NaN], the
    missing marker. *)
Inductive cell :=
| CTime (t : time)
| CVal (j : json)
| CNaN.

(** [None] in a list of observations is stored as the missing marker. *)
Definition cell_of_json (j : json) : cell :=
  match j with
  | JNull => CNaN
  | _ => CVal j
  end.

(** A list of values handed to pandas as a column. *)
Definition cells_of_json (j : json) : pyres (list cell) :=
  match j with
  | JArr l => Ret (cell_of_json <$> l)
  | _ => Unmodelled
  end.

(** A data frame: the column labels in order and the rows, each holding
    one cell per column. *)
Record frame := {
  columns : list string;
  rows : list (list cell);
}.

(** [pd.DataFrame()] *)
Definition empty_frame : frame := {| columns := []; rows := [] |}.

(** [df.empty]: some axis has length zero. *)
Definition df_empty (df : frame) : bool :=
  bool_decide (columns df = []) || bool_decide (rows df = []).

(** A dict display [{k1: v1, k2: v2, ...}]: a repeated key keeps its
    first position and takes the last value. *)
Fixpoint dict_set {V} (k : string) (v : V) (d : list (string * V))
  : list (string * V) :=
  match d with
  | [] => [(k, v)]
  | (k', v') :: d' =>
      if bool_decide (k = k') then (k, v) :: d'
      else (k', v') :: dict_set k v d'
  end.

Definition dict_display {V} (items : list (string * V)) : list (string * V) :=
  foldl (λ d kv, dict_set kv.1 kv.2 d) [] items.

(** The rows of a table given column by column; every column has [n]
    cells. *)
Definition transpose (n : nat) (cols : list (list cell)) : list (list cell) :=
  foldr (zip_with cons) (replicate n []) cols.

(** [pd.DataFrame(data)] for a dict of equally long columns. *)
Definition DataFrame (data : list (string * list cell)) : pyres frame :=
  match data with
  | [] => Ret empty_frame
  | (_, c0) :: _ =>
      let n := length c0 in
      if forallb (λ kv, bool_decide (length kv.2 = n)) data then
        Ret {| columns := data.*1; rows := transpose n data.*2 |}
      else Raise (ValueError "All arrays must be of the same length")
  end.

(** The position of a label among the columns. *)
Fixpoint index_of (name : string) (l : list string) : option nat :=
  match l with
  | [] => None
  | x :: l' => if bool_decide (x = name) then Some 0%nat else S <$> index_of name l'
  end.

(** [df[name] = col] for a list [col]: an existing column is replaced in
    place, a new one is added last. *)
Definition setitem (df : frame) (name : string) (col : list cell)
  : pyres frame :=
  if bool_decide (length col = length (rows df)) then
    match index_of name (columns df) with
    | Some i =>
        Ret {| columns := columns df;
               rows := zip_with (λ r c, <[i := c]> r) (rows df) col |}
    | None =>
        Ret {| columns := columns df ++ [name];
               rows := zip_with (λ r c, r ++ [c]) (rows df) col |}
    end
  else Raise (ValueError "Length of values does not match length of index").

(** *** Timestamp parsing *)

(** What the timestamp parser makes of one entry: a timestamp, a null
    entry (which is [NaT] without being an error), or an entry that does
    not parse. *)
Inductive ts_parse :=
| TsValid (t : Z)
| TsNull
| TsInvalid.

(** The [errors] argument of [pd.to_datetime]; the default is
    [ErrorsRaise]. *)
Inductive errors_mode :=
| ErrorsRaise
| ErrorsCoerce.

Section ToDatetime.
(** The entry parser of pandas is a parameter of the development:
    [parse_entry l e] is what pandas makes of the entry [e] of the list
    [l] (it settles on one timestamp format for the whole list). *)
Context (parse_entry : list json → json → ts_parse).

Definition to_datetime_entry (errors : errors_mode) (l : list json)
    (e : json) : pyres time :=
  match parse_entry l e with
  | TsValid t => Ret (Some t)
  | TsNull => Ret None
  | TsInvalid =>
      match errors with
      | ErrorsCoerce => Ret None
      | ErrorsRaise => Raise (ValueError "Unknown datetime string format")
      end
  end.

(** [pd.to_datetime(arg, errors=...)] for a list [arg]. *)
Definition to_datetime (errors : errors_mode) (arg : json)
  : pyres (list time) :=
  match arg with
  | JArr l => py_mapM (to_datetime_entry errors l) l
  | _ => Unmodelled
  end.
End ToDatetime.

(** *** The outer join on [Time] *)

(** Keys in the order of the joined table: ascending, [NaT] last. *)
Definition time_le (a b : time) : Prop :=
  match a, b with
  | Some x, Some y => x ≤ y
  | _, None => True
  | None, Some _ => False
  end.

#[global] Instance time_le_dec a b : Decision (time_le a b).
Proof. destruct a, b; simpl; apply _. Defined.

(** The distinct keys of both sides, sorted. *)
Definition join_keys (l r : list time) : list time :=
  merge_sort time_le (remove_dups (l ++ r)).

(** The rows of the result that carry key [k].  [L] holds the left rows
    with their keys; [R] holds the right rows with their keys, the key
    cell itself removed.  [i] is the position of the key among the [nl]
    left columns; [nr] counts the right columns that remain. *)
Definition join_group (i nl nr : nat)
    (L R : list (time * list cell)) (k : time) : list (list cell) :=
  let l := filter (λ x, x.1 = k) L in
  let r := filter (λ y, y.1 = k) R in
  match l, r with
  | _, [] => (λ x, x.2 ++ replicate nr CNaN) <$> l
  | [], _ => (λ y, <[i := CTime k]> (replicate nl CNaN) ++ y.2) <$> r
  | _, _ => x ← l; (λ y, x.2 ++ y.2) <$> r
  end.

Definition outer_join (i nl nr : nat)
    (L R : list (time * list cell)) : list (list cell) :=
  k ← join_keys L.*1 R.*1; join_group i nl nr L R k.

(** A row with the timestamp found at position [i]. *)
Definition keyed (i : nat) (r : list cell) : option (time * list cell) :=
  match r !! i with
  | Some (CTime t) => Some (t, r)
  | _ => None
  end.

(** The label of a column after the join: a label both sides carry gets
    the side's suffix. *)
Definition relabel (suffix : string) (overlap : list string) (name : string)
  : string :=
  if bool_decide (name ∈ overlap) then name +:+ suffix else name.

(** [pd.merge(left, right, on="Time", how="outer")].  Both sides need a
    [Time] column; the result has the left columns followed by the right
    columns other than [Time]; a suffix that makes two labels of one
    side equal is refused. *)
Definition merge (left right : frame) : pyres frame :=
  match index_of "Time" (columns left), index_of "Time" (columns right) with
  | Some i, Some j =>
      match mapM (keyed i) (rows left), mapM (keyed j) (rows right) with
      | Some L, Some R =>
          let R' := (λ y, (y.1, delete j y.2)) <$> R in
          let rnames := delete j (columns right) in
          let overlap := filter (λ c, c ∈ rnames) (columns left) in
          let llabels := relabel "_x" overlap <$> columns left in
          let rlabels := relabel "_y" overlap <$> rnames in
          if bool_decide (NoDup llabels) && bool_decide (NoDup rlabels) then
            Ret {| columns := llabels ++ rlabels;
                   rows := outer_join i (length llabels) (length rlabels) L R' |}
          else
            Raise (Exn "MergeError"
                     "Passing 'suffixes' which cause duplicate columns is not allowed.")
      | _, _ => Unmodelled
      end
  | _, _ => Raise (KeyError "Time")
  end.

End Pandas.
Export Pandas.

(** ** The two computations over the fetched document *)

(** What the session supplies to a computation: the selected variables,
    the request URL that [url()] built from the station and the date
    range, and the behaviour of the remote API. *)
Record session := {
  input_vars : raw_vars;
  request_url : string;
  http : get_request → get_outcome;
}.

(** What [weather_plot] draws. *)
Inductive figure :=
| FigText (msg : string)
| FigSingleAxis (var : string)
| FigDualAxis (var1 var2 : string).

(** [pd.DataFrame({"Error": [msg]})], the one-row diagnostic table. *)
Definition error_frame (msg : string) : frame :=
  {| columns := ["Error"]; rows := [[CVal (JStr msg)]] |}.

(** The requested variables: [get_vars_str().split(",")]. *)
Definition requested_vars (raw : raw_vars) : list string :=
  split "," (get_vars_str raw).

(** The merge of one variable's frame into the master table: the first
    frame seeds the table, the later ones are joined onto it. *)
Definition merge_into (df_master df_var : frame) : pyres frame :=
  if df_empty df_master then Ret df_var
  else merge df_master df_var.

Section Server.
Context (parse_entry : list json → json → ts_parse).

(** The loop of [parsed_data] over the selected variables. *)
Fixpoint parsed_data_loop (observations : gmap string json)
    (selected_vars : list string) (df : frame) : pyres frame :=
  match selected_vars with
  | [] => Ret df
  | var_name :: rest =>
      let variable_key := var_name +:+ "_set_1" in
      match observations !! variable_key with
      | Some values =>
          col ← cells_of_json values;
          df' ← setitem df var_name col;
          parsed_data_loop observations rest df'
      | None => parsed_data_loop observations rest df
      end
  end.

(** [parsed_data], on the value [weather_data()] returned; [None] is
    Python's [None]. *)
Definition parsed_data_of (raw : raw_vars) (data : json)
  : pyres (option frame) :=
  has_error ← (if negb (truthy data) then Ret true else py_in "Error" data);
  if has_error : bool then Ret None
  else
    station_list ← py_get data "STATION" (JArr [JObj ∅]);
    match station_list with
    | JArr (station_data :: _) =>
        observations ← py_get station_data "OBSERVATIONS" (JObj ∅);
        date_time ← py_get observations "date_time" (JArr []);
        times ← to_datetime parse_entry ErrorsRaise date_time;
        df ← DataFrame (dict_display [("Time", CTime <$> times)]);
        match observations with
        | JObj obs => Some <$> parsed_data_loop obs (requested_vars raw) df
        | _ => Raise (AttributeError "object has no attribute 'get'")
        end
    | _ => Ret None
    end.

Definition parsed_data (s : session) : pyres (option frame) :=
  data ← (weather_data (request_url s) (http s)).2;
  parsed_data_of (input_vars s) data.

(** The body of [weather_plot], on the value [parsed_data()] returned. *)
Definition weather_plot_of (df : option frame) : figure :=
  match df with
  | None => FigText "No data available"
  | Some df =>
      if df_empty df then FigText "No data available"
      else
        let selected_vars :=
          filter (λ col, col ≠ "Time") (columns df) in
        if bool_decide (length selected_vars = 0%nat) then
          FigText "No variables selected"
        else if bool_decide (length selected_vars = 1%nat) then
          FigSingleAxis (nth 0 selected_vars "")
        else
          FigDualAxis (nth 0 selected_vars "") (nth 1 selected_vars "")
  end.

Definition weather_plot (s : session) : pyres figure :=
  weather_plot_of <$> parsed_data s.

(** The loop of [variable_data_output] over the requested variables;
    it returns the table handed to [render.DataGrid]. *)
Fixpoint variable_data_loop (observations : json)
    (vars : list string) (df_master : frame) : pyres frame :=
  match vars with
  | [] => Ret df_master
  | var_name :: rest =>
      let variable_key := var_name +:+ "_set_1" in
      present ← py_in variable_key observations;
      if negb present then
        Ret (error_frame ("Variable '" +:+ variable_key
                            +:+ "' not found in API response."))
      else
        date_time ← py_get observations "date_time" (JArr []);
        times ← to_datetime parse_entry ErrorsCoerce date_time;
        values ← py_get observations variable_key (JArr []);
        col ← cells_of_json values;
        df_var ← DataFrame (dict_display [("Time", CTime <$> times);
                                           (var_name, col)]);
        if df_empty df_var then
          Ret (error_frame "No valid data available.")
        else
          df_master' ← merge_into df_master df_var;
          variable_data_loop observations rest df_master'
  end.

(** The [try] block of [variable_data_output]. *)
Definition variable_data_try (raw : raw_vars) (data : json) : pyres frame :=
  station_data ← py_get data "STATION" (JArr [JObj ∅]);
  match station_data with
  | JArr (first :: _) =>
      observations ← py_get first "OBSERVATIONS" JNull;
      if negb (truthy observations) then
        Ret (error_frame "Unexpected API response format.")
      else
        variable_data_loop observations (requested_vars raw) empty_frame
  | _ => Ret (error_frame "Unexpected API response format.")
  end.

(** [variable_data_output], on the value [weather_data()] returned:
    [except Exception] turns whatever the block raises into a
    diagnostic table. *)
Definition variable_data_output_of (raw : raw_vars) (data : json)
  : pyres frame :=
  has_error ← (if negb (truthy data) then Ret true else py_in "Error" data);
  if has_error : bool then Ret (error_frame "No data available.")
  else
    match variable_data_try raw data with
    | Raise e => Ret (error_frame ("Error processing data: " +:+ exn_text e))
    | r => r
    end.

Definition variable_data_output (s : session) : pyres frame :=
  data ← (weather_data (request_url s) (http s)).2;
  variable_data_output_of (input_vars s) data.

End Server.

(** ** Time series and the tables built from them *)

(** One variable's observations: the points in the order the API
    returned them. *)
Record TimeSeries := {
  variable : string;
  points : list (time * cell);
}.

(** The frame [variable_data_output] builds for one variable: a [Time]
    column and the variable's column. *)
Definition series_frame (s : TimeSeries) : frame :=
  {| columns := ["Time"; variable s];
     rows := (λ p, [CTime p.1; p.2]) <$> points s |}.

(** The set of timestamps of a series. *)
Definition timestamps (s : TimeSeries) : gset time :=
  list_to_set (points s).*1.

(** The observation a list of points holds at a timestamp, the missing
    marker if it holds none. *)
Fixpoint value_at (pts : list (time * cell)) (t : time) : cell :=
  match pts with
  | [] => CNaN
  | p :: pts' => if bool_decide (p.1 = t) then p.2 else value_at pts' t
  end.

(** The accumulation of [variable_data_output] over frames that are
    already built: an empty frame ends the loop with a diagnostic,
    every other frame is merged into the master table. *)
Fixpoint merge_series (l : list TimeSeries) (df_master : frame)
  : pyres frame :=
  match l with
  | [] => Ret df_master
  | s :: rest =>
      let df_var := series_frame s in
      if df_empty df_var then Ret (error_frame "No valid data available.")
      else
        df_master' ← merge_into df_master df_var;
        merge_series rest df_master'
  end.

(** A row read as a record from column labels to cells, and a table as
    the list of its records: two tables that differ in column order only
    have the same records. *)
Definition record_of (cols : list string) (row : list cell)
  : gmap string cell :=
  list_to_map (zip cols row).

Definition records (f : frame) : list (gmap string cell) :=
  record_of (columns f) <$> rows f.

(** Two results hold the same table up to the order of columns and of
    rows. *)
Definition same_table (r1 r2 : pyres frame) : Prop :=
  ∃ f1 f2, r1 = Ret f1 ∧ r2 = Ret f2
    ∧ columns f1 ≡ₚ columns f2 ∧ records f1 ≡ₚ records f2.

(** The series a response holds for a variable: the parsed [date_time]
    entries paired with the variable's values. *)
Definition series_of (times : list time) (var_name : string)
    (values : list json) : TimeSeries :=
  {| variable := var_name;
     points := zip times (cell_of_json <$> values) |}.

(** The selection holds a comma-free name. *)
Fixpoint comma_free (s : string) : bool :=
  match s with
  | EmptyString => true
  | String c s' => negb (bool_decide (c = ","%char)) && comma_free s'
  end.

(** ** Concrete inputs *)

(** An entry parser for the concrete inputs below.  It reads the
    timestamp form the weather API documents, [YYYY-MM-DDThh:mm:ssZ],
    and null entries; the concrete inputs hold no other parseable
    entry. *)
Module Iso.

Definition digit (c : ascii) : option Z :=
  let n := Z.of_nat (nat_of_ascii c) in
  if (48 <=? n) && (n <=? 57) then Some (n - 48) else None.

Definition number (cs : list ascii) : option Z :=
  foldl (λ acc c, a ← acc; d ← digit c; Some (10 * a + d)) (Some 0) cs.

Definition leap (y : Z) : bool :=
  (y mod 4 =? 0) && (negb (y mod 100 =? 0) || (y mod 400 =? 0)).

Definition days_in_month (y m : Z) : Z :=
  if m =? 2 then (if leap y then 29 else 28)
  else if (m =? 4) || (m =? 6) || (m =? 9) || (m =? 11) then 30
  else 31.

(** Days between 1970-01-01 and the given civil date. *)
Definition days_from_civil (y m d : Z) : Z :=
  let y' := if m <=? 2 then y - 1 else y in
  let era := y' / 400 in
  let yoe := y' - era * 400 in
  let doy := (153 * (if 2 <? m then m - 3 else m + 9) + 2) / 5 + d - 1 in
  let doe := yoe * 365 + yoe / 4 - yoe / 100 + doy in
  era * 146097 + doe - 719468.

Definition timestamp (s : string) : option Z :=
  match String.list_ascii_of_string s with
  | [y1; y2; y3; y4; p1; m1; m2; p2; d1; d2; pt;
     h1; h2; q1; i1; i2; q2; s1; s2; pz] =>
      if bool_decide ([p1; p2; pt; q1; q2; pz]
                      = ["-"; "-"; "T"; ":"; ":"; "Z"]%char) then
        y ← number [y1; y2; y3; y4]; m ← number [m1; m2];
        d ← number [d1; d2]; h ← number [h1; h2];
        i ← number [i1; i2]; sec ← number [s1; s2];
        if (1 <=? m) && (m <=? 12) && (1 <=? d) && (d <=? days_in_month y m)
           && (h <? 24) && (i <? 60) && (sec <? 60)
        then Some ((((days_from_civil y m d * 24 + h) * 60 + i) * 60 + sec)
                   * 1000000000)
        else None
      else None
  | _ => None
  end.

Definition entry (_ : list json) (j : json) : ts_parse :=
  match j with
  | JNull => TsNull
  | JStr s =>
      match timestamp s with
      | Some t => TsValid t
      | None => TsInvalid
      end
  | _ => TsInvalid
  end.

End Iso.

(** A 200 response of the weather API whose first station carries the
    given observation block. *)
Definition station_doc (observations : list (string * json)) : json :=
  JObj {[ "STATION" :=
            JArr [JObj {[ "OBSERVATIONS" := JObj (list_to_map observations) ]}] ]}.

Definition serve (doc : json) : get_request → get_outcome :=
  λ _, GetResponse 200 "OK" (BodyJson doc).

Definition example_url : string :=
  "https://api.synopticdata.com/v2/stations/timeseries?stid=RFBRC".

(** Two variables are selected; the response holds only the first. *)
Definition session_missing_variable : session :=
  {| input_vars := RawTuple ["air_temp"; "soil_moisture"];
     request_url := example_url;
     http := serve (station_doc
       [ ("date_time", JArr [JStr "2025-02-06T00:00:00Z";
                             JStr "2025-02-06T00:15:00Z"]);
         ("air_temp_set_1", JArr [JNum 3; JNum 4]) ]) |}.

(** One variable is selected; the second [date_time] entry is not a
    timestamp. *)
Definition session_invalid_timestamp : session :=
  {| input_vars := RawTuple ["air_temp"];
     request_url := example_url;
     http := serve (station_doc
       [ ("date_time", JArr [JStr "2025-02-06T00:00:00Z"; JStr "not-a-date"]);
         ("air_temp_set_1", JArr [JNum 3; JNum 4]) ]) |}.

(** A 200 response that carries both a list-typed [STATION] field and a
    top-level [Error] key. *)
Definition session_error_key : session :=
  {| input_vars := RawTuple ["air_temp"];
     request_url := example_url;
     http := serve (JObj
       {[ "Error" := JStr "quota exceeded";
          "STATION" :=
            JArr [JObj {[ "OBSERVATIONS" := JObj
              {[ "date_time" := JArr [JStr "2025-02-06T00:00:00Z"];
                 "air_temp_set_1" := JArr [JNum 3] ]} ]}] ]}) |}.

Definition example_config : config :=
  {| GITHUB_TOKEN := Some "t0ken"; syn_token := Some "syn";
     REPO_OWNER := Some "iron-ops"; REPO_NAME := Some "iRON-webtool" |}.

Definition page_at_load : ui_state :=
  {| feedback_status := ""; submit_feedback_disabled := false |}.

(** Two series that share a repeated timestamp. *)
Definition series_air_temp_repeated : TimeSeries :=
  {| variable := "air_temp";
     points := [ (Some 1738800000000000000, CVal (JNum 3));
                 (Some 1738800000000000000, CVal (JNum 4)) ] |}.

Definition series_soil_temp_repeated : TimeSeries :=
  {| variable := "soil_temp";
     points := [ (Some 1738800000000000000, CVal (JNum 7));
                 (Some 1738800000000000000, CVal (JNum 8)) ] |}.

(** Two series with overlapping timestamps. *)
Definition series_air_temp : TimeSeries :=
  {| variable := "air_temp";
     points := [ (Some 1738800000000000000, CVal (JNum 3));
                 (Some 1738800900000000000, CVal (JNum 4)) ] |}.

Definition series_soil_temp : TimeSeries :=
  {| variable := "soil_temp";
     points := [ (Some 1738800900000000000, CVal (JNum 7));
                 (Some 1738801800000000000, CVal (JNum 8)) ] |}.

(** The observation block of [session_missing_variable]. *)
Definition observations_missing_variable : gmap string json :=
  list_to_map
    [ ("date_time", JArr [JStr "2025-02-06T00:00:00Z";
                          JStr "2025-02-06T00:15:00Z"]);
      ("air_temp_set_1", JArr [JNum 3; JNum 4]) ].

(** Two variables are selected; neither [date_time] entry is a
    timestamp. *)
Definition session_two_invalid_timestamps : session :=
  {| input_vars := RawTuple ["air_temp"; "soil_temp"];
     request_url := example_url;
     http := serve (station_doc
       [ ("date_time", JArr [JStr "n/a"; JStr "n/a"]);
         ("air_temp_set_1", JArr [JNum 3; JNum 4]);
         ("soil_temp_set_1", JArr [JNum 7; JNum 8]) ]) |}.

(** ** Notions used to state the properties *)

(** The request the handler sends for a feedback text. *)
Definition issue_request (cfg : config) (feedback : string) : post_request :=
  {| post_url := "https://api.github.com/repos/" +:+ fmt_env (REPO_OWNER cfg)
                   +:+ "/" +:+ fmt_env (REPO_NAME cfg) +:+ "/issues";
     post_headers :=
       [ ("Authorization", "token " +:+ fmt_env (GITHUB_TOKEN cfg));
         ("Accept", "application/vnd.github.v3+json") ];
     post_json :=
       [ ("title", "User Feedback from Shiny App"); ("body", feedback) ];
     post_timeout := Some 10 |}.

(** An effect that does not disable a control. *)
Definition enables_only (ev : ui_event) : Prop :=
  ∀ id label d, ev = UpdateActionButton id label d → d = false.


(** The values a list of points holds at a timestamp, in order. *)
Definition values_at (pts : list (time * cell)) (t : time) : list cell :=
  snd <$> filter (λ p, p.1 = t) pts.

(** The values an outer join puts side by side under one key: every
    pairing when both sides hold the key, the missing marker against
    the side that does not. *)
Definition paired (xs ys : list cell) : list (cell * cell) :=
  match xs, ys with
  | _, [] => (λ x, (x, CNaN)) <$> xs
  | [], _ => (λ y, (CNaN, y)) <$> ys
  | _, _ => x ← xs; (λ y, (x, y)) <$> ys
  end.

(** The labels [pd.merge] gives the variable columns of two series: the
    names themselves, or the suffixed names when both series carry the
    same name. *)
Definition merged_labels (va vb : string) : list string :=
  if bool_decide (va = vb) then [va +:+ "_x"; vb +:+ "_y"] else [va; vb].

(** Neither series is called "Time", the label of the key column, and
    there is one series per variable: two series of one variable are
    the same series. *)
Definition one_series_per_variable (A B : TimeSeries) : Prop :=
  variable A ≠ "Time" ∧ variable B ≠ "Time"
  ∧ (variable A = variable B → A = B).

(** The rows of the outer join of two lists of points: for each key in
    key order, the paired values under that key. *)
Definition joined_rows (A B : list (time * cell)) : list (list cell) :=
  k ← join_keys A.*1 B.*1;
  (λ ab, [CTime k; ab.1; ab.2]) <$> paired (values_at A k) (values_at B k).

(** The timestamp pandas stores for an entry it parses with
    [errors="coerce"]. *)
Definition coerced (parse_entry : list json → json → ts_parse)
    (l : list json) (e : json) : time :=
  match parse_entry l e with
  | TsValid t => Some t
  | _ => None
  end.

(** The timestamps pandas stores for a list of entries. *)
Definition coerced_times (parse_entry : list json → json → ts_parse)
    (l : list json) : list time :=
  coerced parse_entry l <$> l.

(** The document has no "Error" key and its first station carries the
    observation block [obs]. *)
Definition carries (data : json) (obs : gmap string json) : Prop :=
  ∃ m st more,
    data = JObj m ∧ m !! "Error" = None
    ∧ m !! "STATION" = Some (JArr (JObj st :: more))
    ∧ st !! "OBSERVATIONS" = Some (JObj obs).

(** The observation block holds the variable's array. *)
Definition present (obs : gmap string json) (v : string) : Prop :=
  is_Some (obs !! (v +:+ "_set_1")).

(** The variable's array is a list aligned with [n] timestamps. *)
Definition aligned (obs : gmap string json) (n : nat) (v : string) : Prop :=
  ∀ x, obs !! (v +:+ "_set_1") = Some x →
       ∃ values, x = JArr values ∧ length values = n.

(** An observation block that is well formed for the requested
    variables: [date_time] is a non-empty list of entries that parse,
    every requested variable the block holds is a list of as many
    values, and the requested names are distinct and differ from
    "Time". *)
Record well_formed (parse_entry : list json → json → ts_parse)
    (obs : gmap string json) (vars : list string) (entries : list json)
  : Prop := {
  wf_date_time : obs !! "date_time" = Some (JArr entries);
  wf_some_entry : entries ≠ [];
  wf_entries_parse : Forall (λ e, parse_entry entries e ≠ TsInvalid) entries;
  wf_aligned : Forall (aligned obs (length entries)) vars;
  wf_distinct : NoDup ("Time" :: vars);
}.

(** A table whose first column is [Time] and holds timestamps. *)
Definition time_keyed (df : frame) (names : list string) : Prop :=
  columns df = "Time" :: names
  ∧ Forall (λ r, ∃ t rest, r = CTime t :: rest) (rows df).

(** What [weather_plot] draws for the given variable columns. *)
Definition plot_of_columns (selected : list string) : figure :=
  match selected with
  | [] => FigText "No variables selected"
  | [a] => FigSingleAxis a
  | a :: b :: _ => FigDualAxis a b
  end.

(** The values an observation block lists for a variable. *)
Definition values_of (obs : gmap string json) (v : string) : list json :=
  match obs !! (v +:+ "_set_1") with
  | Some (JArr values) => values
  | _ => []
  end.

(** The series the table computation reads from an observation block
    for a variable. *)
Definition series_in (parse_entry : list json → json → ts_parse)
    (obs : gmap string json) (entries : list json) (v : string)
  : TimeSeries :=
  series_of (coerced_times parse_entry entries) v (values_of obs v).

(** * Properties *)

(** One step of a computation in [pyres]: the value of the first call is
    handed to the rest. *)
Ltac py_step := cbn [mbind pyres_bind negb].

(** ** The variable string *)

Lemma split_comma_free (s : string) :
  comma_free s = true → split "," s = [s].
Proof.
  induction s as [|c s IH]; simpl; [done|].
  case_bool_decide; simpl; [done|].
  intros Hs. by rewrite IH.
Qed.

Lemma split_cons (s rest : string) :
  comma_free s = true →
  split "," (s +:+ String "," rest) = s :: split "," rest.
Proof.
  induction s as [|c s IH]; simpl.
  - done.
  - case_bool_decide; simpl; [done|].
    intros Hs. by rewrite IH.
Qed.

(** Splitting the joined string gives the selection back, in order. *)
Lemma split_join (l : list string) :
  l ≠ [] → Forall (λ v, comma_free v = true) l →
  split "," (join "," l) = l.
Proof.
  intros Hne Hall. induction Hall as [|v l Hv Hall IH]; [done|].
  destruct l as [|w l].
  - simpl. by apply split_comma_free.
  - change (join "," (v :: w :: l)) with (v +:+ String "," (join "," (w :: l))).
    rewrite split_cons by done. f_equal. by apply IH.
Qed.

(** C9: an empty or null selection is formatted as exactly "air_temp"; a
    non-empty list or tuple is formatted as its comma-separated join, in
    the order of the selection (splitting the string at the commas gives
    the selection back when no name holds a comma). *)
Theorem get_vars_str_format (l : list string) :
  get_vars_str RawNone = "air_temp"
  ∧ get_vars_str (RawList []) = "air_temp"
  ∧ get_vars_str (RawTuple []) = "air_temp"
  ∧ (l ≠ [] →
     get_vars_str (RawList l) = join "," l
     ∧ get_vars_str (RawTuple l) = join "," l
     ∧ (Forall (λ v, comma_free v = true) l →
        requested_vars (RawList l) = l ∧ requested_vars (RawTuple l) = l)).
Proof.
  repeat split; try done.
  - destruct l; done.
  - destruct l; done.
  - unfold requested_vars. destruct l; [done|]. by apply split_join.
  - unfold requested_vars. destruct l; [done|]. by apply split_join.
Qed.

Lemma get_vars_str_format_witness :
  get_vars_str (RawTuple ["air_temp"; "soil_moisture"])
    = "air_temp,soil_moisture"
  ∧ requested_vars (RawTuple ["air_temp"; "soil_moisture"])
    = ["air_temp"; "soil_moisture"].
Proof.
  destruct (get_vars_str_format ["air_temp"; "soil_moisture"])
    as (_ & _ & _ & H).
  destruct H as (_ & Ht & Hr); [done|].
  split; [exact Ht|].
  apply Hr. repeat constructor.
Defined.

(** ** The feedback handler *)

Lemma ui_run_app (st : ui_state) (l1 l2 : list ui_event) :
  ui_run st (l1 ++ l2) = ui_run (ui_run st l1) l2.
Proof. unfold ui_run. apply foldl_app. Qed.

(** C7: a text that strips to the empty string ends in the "feedback is
    empty" status with no network call; any other text issues exactly
    one issue-creation POST, after which status 201 gives the success
    status and any other status gives the failure status that carries
    the code and the body (and a call that raises gives the status that
    carries the exception's text). *)
Theorem submit_feedback_outcomes (cfg : config) (text : string)
    (post : post_request → post_outcome) (st : ui_state) :
  let evs := submit_feedback_issue cfg text post in
  (strip text = "" →
     posts evs = []
     ∧ feedback_status (ui_run st evs)
       = "Feedback is empty. Please type something first.")
  ∧ (strip text ≠ "" →
     posts evs = [issue_request cfg (strip text)]
     ∧ (∀ code body,
          post (issue_request cfg (strip text)) = PostResponse code body →
          (code = 201 →
             feedback_status (ui_run st evs)
             = "Thank you! Your feedback has been submitted.")
          ∧ (code ≠ 201 →
             feedback_status (ui_run st evs)
             = "Error creating issue: " +:+ pretty code
                 +:+ String "010" body))
     ∧ (∀ e, post (issue_request cfg (strip text)) = PostRaises e →
          feedback_status (ui_run st evs) = "Error: " +:+ e)).
Proof.
  intros evs. subst evs. unfold submit_feedback_issue. split.
  - intros ->. done.
  - intros Hne. rewrite bool_decide_eq_false_2 by done.
    fold (issue_request cfg (strip text)).
    split.
    + by destruct (post _) as [code body|e]; [destruct (code =? 201)|].
    + split.
      * intros code body ->. split.
        -- intros ->. done.
        -- intros Hc. apply Z.eqb_neq in Hc. rewrite Hc. done.
      * intros e ->. done.
Qed.

Lemma submit_feedback_outcomes_witness :
  posts (submit_feedback_issue example_config "   " (λ _, PostResponse 201 ""))
    = []
  ∧ posts (submit_feedback_issue example_config " hello "
             (λ _, PostResponse 500 "down"))
    = [issue_request example_config "hello"]
  ∧ feedback_status
      (ui_run page_at_load
         (submit_feedback_issue example_config " hello "
            (λ _, PostResponse 500 "down")))
    = "Error creating issue: 500" +:+ String "010" "down".
Proof.
  destruct (submit_feedback_outcomes example_config "   "
              (λ _, PostResponse 201 "") page_at_load) as [[He _] _];
    [reflexivity|].
  destruct (submit_feedback_outcomes example_config " hello "
              (λ _, PostResponse 500 "down") page_at_load) as [_ Hs].
  destruct Hs as (Hp & Hr & _); [vm_compute; discriminate|].
  destruct (Hr 500 "down" eq_refl) as [_ Hf].
  split; [exact He|]. split; [exact Hp|]. apply Hf. discriminate.
Defined.

(** The handler never asks for the control to be disabled. *)
Lemma submit_feedback_only_enables (cfg : config) (text : string)
    (post : post_request → post_outcome) :
  Forall enables_only (submit_feedback_issue cfg text post).
Proof.
  unfold submit_feedback_issue. case_bool_decide.
  - repeat constructor; intros ???; discriminate.
  - destruct (post _) as [code body|e]; [destruct (code =? 201)|];
      repeat constructor; intros ??? [=]; done.
Qed.

Lemma ui_run_stays_enabled (evs : list ui_event) (st : ui_state) :
  Forall enables_only evs →
  submit_feedback_disabled st = false →
  submit_feedback_disabled (ui_run st evs) = false.
Proof.
  intros Hevs. revert st.
  induction Hevs as [|ev evs Hev _ IH]; intros st Hst; [done|].
  apply IH. destruct ev as [s|m t d|r|id label d]; simpl; try done.
  case_bool_decide; [|done]. simpl. by eapply Hev.
Qed.

(** C8, as the handler implements it: no step of an attempt disables the
    submit control; an attempt with a non-empty text ends by enabling
    the control whether the call returned 201, returned another status
    or raised; an attempt with an empty text leaves the control as it
    was.  A control that is enabled before an attempt is therefore
    enabled in every terminal state. *)
Theorem submit_control_enabled (cfg : config) (text : string)
    (post : post_request → post_outcome) (st : ui_state) :
  let evs := submit_feedback_issue cfg text post in
  (∀ pre suf, evs = pre ++ suf →
     submit_feedback_disabled st = false →
     submit_feedback_disabled (ui_run st pre) = false)
  ∧ (strip text ≠ "" → submit_feedback_disabled (ui_run st evs) = false)
  ∧ (strip text = "" →
     submit_feedback_disabled (ui_run st evs) = submit_feedback_disabled st).
Proof.
  intros evs. split; [|split].
  - intros pre suf Hevs Hst.
    apply ui_run_stays_enabled; [|done].
    pose proof (submit_feedback_only_enables cfg text post) as Hall.
    fold evs in Hall. rewrite Hevs in Hall.
    by apply Forall_app in Hall as [? _].
  - intros Hne. subst evs. unfold submit_feedback_issue.
    rewrite bool_decide_eq_false_2 by done.
    rewrite app_comm_cons, ui_run_app. done.
  - intros He. subst evs. unfold submit_feedback_issue. by rewrite He.
Qed.

Lemma submit_control_enabled_witness :
  submit_feedback_disabled
    (ui_run page_at_load
       (submit_feedback_issue example_config "hello"
          (λ _, PostRaises "connection reset"))) = false
  ∧ submit_feedback_disabled
      (ui_run page_at_load
         (submit_feedback_issue example_config "  "
            (λ _, PostRaises "connection reset"))) = false.
Proof.
  destruct (submit_control_enabled example_config "hello"
              (λ _, PostRaises "connection reset") page_at_load)
    as (_ & Hsent & _).
  destruct (submit_control_enabled example_config "  "
              (λ _, PostRaises "connection reset") page_at_load)
    as (_ & _ & Hempty).
  split.
  - apply Hsent. vm_compute. discriminate.
  - rewrite Hempty; reflexivity.
Defined.

(** C8 as stated fails: when the handler issues the POST for the text
    "hello", the submit control is still enabled. *)
Lemma submit_control_not_disabled_while_submitting :
  ∃ pre r suf,
    submit_feedback_issue example_config "hello" (λ _, PostResponse 201 "")
      = pre ++ RequestsPost r :: suf
    ∧ submit_feedback_disabled (ui_run page_at_load pre) = false
    ∧ ∀ id label, UpdateActionButton id label true
        ∉ submit_feedback_issue example_config "hello"
            (λ _, PostResponse 201 "").
Proof.
  eexists [], _, _. split; [reflexivity|]. split; [reflexivity|].
  intros id label Hin.
  pose proof (submit_feedback_only_enables example_config "hello"
                (λ _, PostResponse 201 "")) as Hall.
  rewrite Forall_forall in Hall.
  by specialize (Hall _ Hin _ _ _ eq_refl).
Qed.

(** ** The fetch stage *)

(** C2, as [weather_data] implements it: a call with a non-empty URL
    issues exactly one GET, to that URL, whatever the outcome (so
    nothing is retried), and a call with an empty URL issues none and
    returns the "Invalid API URL." failure value; a response whose
    status is not 200, hence every non-2xx response, becomes a failure
    value that carries the code and the reason; a transport failure
    becomes a failure value that carries its message. *)
Theorem weather_data_fetch (url : string) (http : get_request → get_outcome) :
  (url = "" →
     weather_data url http = ([], Ret (error_dict "Invalid API URL.")))
  ∧ (url ≠ "" →
     ∃ req, (weather_data url http).1 = [req] ∧ get_url req = url
       ∧ (∀ code reason body,
            http req = GetResponse code reason body → code ≠ 200 →
            (weather_data url http).2
            = Ret (error_dict ("API Error: " +:+ pretty code +:+ " - "
                                 +:+ reason)))
       ∧ (∀ e, http req = GetRaises e →
            (weather_data url http).2
            = Ret (error_dict ("Error fetching API data: " +:+ e)))).
Proof.
  unfold weather_data. split.
  - intros ->. done.
  - intros Hne. rewrite bool_decide_eq_false_2 by done.
    eexists. split; [reflexivity|]. split; [reflexivity|]. simpl. split.
    + intros code reason body -> Hcode.
      apply Z.eqb_neq in Hcode. by rewrite Hcode.
    + by intros e ->.
Qed.

Lemma weather_data_fetch_witness :
  (weather_data example_url (λ _, GetResponse 503 "Service Unavailable"
                                     (BodyNotJson ""))).1
    = [{| get_url := example_url; get_timeout := None |}]
  ∧ (weather_data example_url (λ _, GetResponse 503 "Service Unavailable"
                                       (BodyNotJson ""))).2
    = Ret (error_dict "API Error: 503 - Service Unavailable")
  ∧ weather_data "" (λ _, GetRaises "unreachable")
    = ([], Ret (error_dict "Invalid API URL.")).
Proof.
  destruct (weather_data_fetch example_url
              (λ _, GetResponse 503 "Service Unavailable" (BodyNotJson "")))
    as [_ Hfetch].
  destruct Hfetch as (req & Hone & Hurl & Hstatus & _); [vm_compute; discriminate|].
  destruct (weather_data_fetch "" (λ _, GetRaises "unreachable")) as [Hnone _].
  split; [reflexivity|]. split.
  - apply (Hstatus 503 "Service Unavailable" (BodyNotJson "") eq_refl).
    discriminate.
  - apply Hnone. reflexivity.
Defined.

(** No GET that [weather_data] issues carries a timeout. *)
Lemma weather_data_get_without_timeout (url : string)
    (http : get_request → get_outcome) (req : get_request) :
  req ∈ (weather_data url http).1 → get_timeout req = None.
Proof.
  unfold weather_data. case_bool_decide; simpl.
  - by intros ?%elem_of_nil.
  - by intros ->%list_elem_of_singleton.
Qed.

(** C2 as stated fails: a call with an empty URL issues no GET, and the
    GET a call does issue carries no timeout. *)
Lemma weather_data_no_get_and_no_timeout :
  (weather_data "" (serve JNull)).1 = []
  ∧ get_timeout <$> (weather_data example_url (serve JNull)).1 = [None].
Proof. split; reflexivity. Qed.

(** A 200 response whose document carries an observation block is
    returned as it is. *)
Lemma weather_data_returns_document (s : session) (reason : string)
    (data : json) (obs : gmap string json) :
  request_url s ≠ "" →
  http s {| get_url := request_url s; get_timeout := None |}
    = GetResponse 200 reason (BodyJson data) →
  carries data obs →
  (weather_data (request_url s) (http s)).2 = Ret data.
Proof.
  intros Hurl Hresp (m & st & more & -> & _ & Hst & _).
  unfold weather_data. rewrite bool_decide_eq_false_2 by done.
  simpl. rewrite Hresp. simpl.
  rewrite bool_decide_eq_true_2 by (by rewrite Hst).
  simpl. by rewrite Hst.
Qed.

(** On such a response the plot computation goes on to parse the
    timestamps of the observation block and to collect the requested
    variables. *)
Lemma parsed_data_on_document (parse_entry : list json → json → ts_parse)
    (s : session) (reason : string) (data : json)
    (obs : gmap string json) :
  request_url s ≠ "" →
  http s {| get_url := request_url s; get_timeout := None |}
    = GetResponse 200 reason (BodyJson data) →
  carries data obs →
  parsed_data parse_entry s
  = (date_time ← py_get (JObj obs) "date_time" (JArr []);
     times ← to_datetime parse_entry ErrorsRaise date_time;
     df ← DataFrame (dict_display [("Time", CTime <$> times)]);
     Some <$> parsed_data_loop obs (requested_vars (input_vars s)) df).
Proof.
  intros Hurl Hresp Hcarries.
  unfold parsed_data.
  rewrite (weather_data_returns_document s reason data obs) by done.
  destruct Hcarries as (m & st & more & -> & Herr & Hst & Hobs).
  py_step. unfold parsed_data_of. simpl truthy.
  rewrite (bool_decide_eq_false_2 (m = ∅))
    by (intros ->; by rewrite lookup_empty in Hst).
  simpl py_in.
  rewrite bool_decide_eq_false_2 by (rewrite Herr; by intros [? ?]).
  py_step. simpl py_get. rewrite Hst. simpl default.
  py_step. simpl py_get. rewrite Hobs. simpl default.
  py_step. done.
Qed.

(** The table computation goes on to its loop over the requested
    variables. *)
Lemma variable_data_output_on_document
    (parse_entry : list json → json → ts_parse)
    (s : session) (reason : string) (data : json)
    (obs : gmap string json) :
  request_url s ≠ "" →
  http s {| get_url := request_url s; get_timeout := None |}
    = GetResponse 200 reason (BodyJson data) →
  carries data obs → obs ≠ ∅ →
  variable_data_output parse_entry s
  = match variable_data_loop parse_entry (JObj obs)
            (requested_vars (input_vars s)) empty_frame with
    | Raise e => Ret (error_frame ("Error processing data: " +:+ exn_text e))
    | r => r
    end.
Proof.
  intros Hurl Hresp Hcarries Hne.
  unfold variable_data_output.
  rewrite (weather_data_returns_document s reason data obs) by done.
  destruct Hcarries as (m & st & more & -> & Herr & Hst & Hobs).
  py_step. unfold variable_data_output_of. simpl truthy.
  rewrite (bool_decide_eq_false_2 (m = ∅))
    by (intros ->; by rewrite lookup_empty in Hst).
  simpl py_in.
  rewrite bool_decide_eq_false_2 by (rewrite Herr; by intros [? ?]).
  py_step. unfold variable_data_try. simpl py_get. rewrite Hst. simpl default.
  py_step. simpl py_get. rewrite Hobs. simpl default.
  py_step. simpl truthy. rewrite (bool_decide_eq_false_2 (obs = ∅)) by done.
  done.
Qed.

(** ** Failure values downstream of the fetch stage *)

Lemma error_key_no_data (parse_entry : list json → json → ts_parse) (raw : raw_vars)
    (m : gmap string json) :
  is_Some (m !! "Error") →
  parsed_data_of parse_entry raw (JObj m) = Ret None
  ∧ variable_data_output_of parse_entry raw (JObj m)
    = Ret (error_frame "No data available.").
Proof.
  intros Herr.
  unfold parsed_data_of, variable_data_output_of. simpl.
  rewrite (bool_decide_eq_true_2 _ Herr).
  by destruct (negb _).
Qed.

(** C10: a 200 response whose JSON object holds a top-level "Error" key
    is treated as a failed fetch by both computations, also when it
    holds a list-typed STATION field: the plot shows the no-data text
    and the table is the no-data diagnostic. *)
Theorem error_key_is_failed_fetch (parse_entry : list json → json → ts_parse)
    (s : session) (reason : string) (m : gmap string json) :
  request_url s ≠ "" →
  http s {| get_url := request_url s; get_timeout := None |}
    = GetResponse 200 reason (BodyJson (JObj m)) →
  is_Some (m !! "Error") →
  weather_plot parse_entry s = Ret (FigText "No data available")
  ∧ variable_data_output parse_entry s
    = Ret (error_frame "No data available.").
Proof.
  intros Hurl Hresp Herr.
  assert (∃ m', (weather_data (request_url s) (http s)).2 = Ret (JObj m')
                ∧ is_Some (m' !! "Error")) as (m' & Hdata & Herr').
  { unfold weather_data. rewrite bool_decide_eq_false_2 by done.
    simpl. rewrite Hresp. simpl.
    case_bool_decide as Hst; simpl.
    - destruct Hst as [st Hst]. rewrite Hst. simpl.
      destruct (isinstance_list st); simpl; [by exists m|].
      eexists. split; [reflexivity|]. by rewrite lookup_singleton_eq.
    - eexists. split; [reflexivity|]. by rewrite lookup_singleton_eq. }
  destruct (error_key_no_data parse_entry (input_vars s) m' Herr')
    as [Hplot Htable].
  unfold weather_plot, parsed_data, variable_data_output.
  rewrite Hdata. simpl. rewrite Hplot, Htable. done.
Qed.

Lemma error_key_is_failed_fetch_witness :
  weather_plot Iso.entry session_error_key = Ret (FigText "No data available")
  ∧ variable_data_output Iso.entry session_error_key
    = Ret (error_frame "No data available.").
Proof.
  eapply (error_key_is_failed_fetch Iso.entry session_error_key "OK").
  - vm_compute. discriminate.
  - reflexivity.
  - vm_compute. eexists. reflexivity.
Defined.

(** ** The axis policy *)

(** The columns [weather_plot] chooses among. *)
Lemma weather_plot_of_selected (df : frame) :
  df_empty df = false →
  weather_plot_of (Some df)
  = plot_of_columns (filter (λ col, col ≠ "Time") (columns df)).
Proof.
  intros Hne. unfold weather_plot_of. rewrite Hne.
  by destruct (filter _ (columns df)) as [|a [|b sel]].
Qed.

(** C6: the plot is chosen from the number of variable columns alone.
    No column: nothing is plotted; one column: a single axis on it; two
    or more: the first on the primary axis and the second on the
    secondary axis, whatever follows them, so that the columns [a; b]
    and [a; b; c] give the same plot.  The rows play no part in the
    choice. *)
Theorem axis_policy (df : frame) (a b : string) (more : list string) :
  df_empty df = false →
  let selected := filter (λ col, col ≠ "Time") (columns df) in
  (selected = [] → weather_plot_of (Some df) = FigText "No variables selected")
  ∧ (selected = [a] → weather_plot_of (Some df) = FigSingleAxis a)
  ∧ (selected = a :: b :: more → weather_plot_of (Some df) = FigDualAxis a b)
  ∧ (∀ df', df_empty df' = false →
       length (filter (λ col, col ≠ "Time") (columns df')) = length selected →
       take 2 (filter (λ col, col ≠ "Time") (columns df')) = take 2 selected →
       weather_plot_of (Some df') = weather_plot_of (Some df)).
Proof.
  intros Hne selected. subst selected.
  repeat split.
  - intros H. by rewrite weather_plot_of_selected, H.
  - intros H. by rewrite weather_plot_of_selected, H.
  - intros H. by rewrite weather_plot_of_selected, H.
  - intros df' Hne' Hlen Htake.
    rewrite !weather_plot_of_selected by done.
    destruct (filter _ (columns df')) as [|a' [|b' sel']],
             (filter _ (columns df)) as [|a0 [|b0 sel0]];
      simpl in *; congruence.
Qed.

Lemma axis_policy_witness :
  weather_plot_of (Some {| columns := ["Time"; "a"; "b"; "c"];
                           rows := [[CTime (Some 0); CNaN; CNaN; CNaN]] |})
  = FigDualAxis "a" "b"
  ∧ weather_plot_of (Some {| columns := ["Time"; "a"; "b"];
                             rows := [[CTime (Some 0); CNaN; CNaN]] |})
  = FigDualAxis "a" "b"
  ∧ weather_plot_of (Some {| columns := ["Time"; "a"];
                             rows := [[CTime (Some 0); CNaN]] |})
  = FigSingleAxis "a"
  ∧ weather_plot_of (Some {| columns := ["Time"];
                             rows := [[CTime (Some 0)]] |})
  = FigText "No variables selected".
Proof.
  split; [|split; [|split]].
  - apply (axis_policy {| columns := ["Time"; "a"; "b"; "c"];
                          rows := [[CTime (Some 0); CNaN; CNaN; CNaN]] |}
             "a" "b" ["c"]); reflexivity.
  - apply (axis_policy {| columns := ["Time"; "a"; "b"];
                          rows := [[CTime (Some 0); CNaN; CNaN]] |}
             "a" "b" []); reflexivity.
  - apply (axis_policy {| columns := ["Time"; "a"];
                          rows := [[CTime (Some 0); CNaN]] |}
             "a" "" []); reflexivity.
  - apply (axis_policy {| columns := ["Time"];
                          rows := [[CTime (Some 0)]] |}
             "" "" []); reflexivity.
Defined.

(** ** Timestamp parsing in the two computations *)

Lemma py_mapM_coerce (parse_entry : list json → json → ts_parse)
    (l0 l : list json) :
  py_mapM (to_datetime_entry parse_entry ErrorsCoerce l0) l
  = Ret (coerced parse_entry l0 <$> l).
Proof.
  induction l as [|e l IH]; [done|].
  simpl. rewrite IH. unfold to_datetime_entry, coerced.
  by destruct (parse_entry l0 e).
Qed.

(** With [errors="coerce"] the parser never raises: every entry gives a
    timestamp or the missing-timestamp marker. *)
Lemma to_datetime_coerce_total (parse_entry : list json → json → ts_parse)
    (l : list json) :
  to_datetime parse_entry ErrorsCoerce (JArr l)
  = Ret (coerced_times parse_entry l).
Proof. apply py_mapM_coerce. Qed.

Lemma py_mapM_raise_valid (parse_entry : list json → json → ts_parse)
    (l0 l : list json) :
  Forall (λ e, parse_entry l0 e ≠ TsInvalid) l →
  py_mapM (to_datetime_entry parse_entry ErrorsRaise l0) l
  = Ret (coerced parse_entry l0 <$> l).
Proof.
  induction 1 as [|e l He _ IH]; [done|].
  simpl. rewrite IH. unfold to_datetime_entry, coerced.
  by destruct (parse_entry l0 e).
Qed.

Lemma length_coerced_times (parse_entry : list json → json → ts_parse)
    (l : list json) :
  length (coerced_times parse_entry l) = length l.
Proof. unfold coerced_times. by rewrite length_fmap. Qed.

(** With the default mode the result is the same when every entry
    parses. *)
Lemma to_datetime_raise_valid (parse_entry : list json → json → ts_parse)
    (l : list json) :
  Forall (λ e, parse_entry l e ≠ TsInvalid) l →
  to_datetime parse_entry ErrorsRaise (JArr l)
  = Ret (coerced_times parse_entry l).
Proof. apply py_mapM_raise_valid. Qed.

Lemma py_mapM_raise_invalid (parse_entry : list json → json → ts_parse)
    (l0 l : list json) :
  Exists (λ e, parse_entry l0 e = TsInvalid) l →
  py_mapM (to_datetime_entry parse_entry ErrorsRaise l0) l
  = Raise (ValueError "Unknown datetime string format").
Proof.
  induction 1 as [e l He|e l _ IH]; simpl.
  - unfold to_datetime_entry. by rewrite He.
  - rewrite IH. unfold to_datetime_entry.
    by destruct (parse_entry l0 e).
Qed.

(** With the default [errors="raise"] an entry that does not parse makes
    the call raise. *)
Lemma to_datetime_raise_invalid (parse_entry : list json → json → ts_parse)
    (l : list json) :
  Exists (λ e, parse_entry l e = TsInvalid) l →
  to_datetime parse_entry ErrorsRaise (JArr l)
  = Raise (ValueError "Unknown datetime string format").
Proof. apply py_mapM_raise_invalid. Qed.

(** On any fetched document whose [date_time] list holds an entry that
    does not parse, the plot computation raises. *)
Lemma plot_raises_on_unparsed_entry
    (parse_entry : list json → json → ts_parse) (s : session)
    (reason : string) (data : json) (obs : gmap string json)
    (entries : list json) :
  request_url s ≠ "" →
  http s {| get_url := request_url s; get_timeout := None |}
    = GetResponse 200 reason (BodyJson data) →
  carries data obs →
  obs !! "date_time" = Some (JArr entries) →
  Exists (λ e, parse_entry entries e = TsInvalid) entries →
  weather_plot parse_entry s
  = Raise (ValueError "Unknown datetime string format").
Proof.
  intros Hurl Hresp Hcarries Hdt Hbad.
  unfold weather_plot.
  rewrite (parsed_data_on_document parse_entry s reason data obs) by done.
  simpl py_get. rewrite Hdt. simpl default. py_step.
  by rewrite (to_datetime_raise_invalid parse_entry entries Hbad).
Qed.

(** C3 on the plot computation: with a [date_time] entry that is not a
    timestamp, the table computation stores the missing-timestamp marker
    and returns the table, while the plot computation raises. *)
Theorem plot_raises_on_invalid_timestamp :
  variable_data_output Iso.entry session_invalid_timestamp
  = Ret {| columns := ["Time"; "air_temp"];
           rows := [ [CTime (Some 1738800000000000000); CVal (JNum 3)];
                     [CTime None; CVal (JNum 4)] ] |}
  ∧ weather_plot Iso.entry session_invalid_timestamp
    = Raise (ValueError "Unknown datetime string format").
Proof. split; vm_compute; reflexivity. Qed.

(** ** The outer join on two series *)

Lemma mapM_keyed_series (pts : list (time * cell)) :
  mapM (keyed 0) ((λ p, [CTime p.1; p.2]) <$> pts)
  = Some ((λ p, (p.1, [CTime p.1; p.2])) <$> pts).
Proof.
  induction pts as [|p pts IH]; [done|].
  rewrite !fmap_cons. simpl. rewrite IH. done.
Qed.

Lemma filter_key_fmap {X} (f : time * cell → X) (pts : list (time * cell))
    (k : time) :
  filter (λ x : time * X, x.1 = k) ((λ p, (p.1, f p)) <$> pts)
  = (λ p, (p.1, f p)) <$> filter (λ p, p.1 = k) pts.
Proof.
  induction pts as [|p pts IH]; [done|].
  rewrite fmap_cons, !filter_cons. simpl.
  case_decide; rewrite IH; done.
Qed.

Lemma join_group_series (A B : list (time * cell)) (k : time) :
  join_group 0 2 1
    ((λ p, (p.1, [CTime p.1; p.2])) <$> A)
    ((λ p, (p.1, [p.2])) <$> B) k
  = (λ ab, [CTime k; ab.1; ab.2]) <$> paired (values_at A k) (values_at B k).
Proof.
  unfold join_group, values_at.
  rewrite (filter_key_fmap (λ p, [CTime p.1; p.2]) A).
  rewrite (filter_key_fmap (λ p, [p.2]) B).
  assert (HA : Forall (λ p, p.1 = k) (filter (λ p : time * cell, p.1 = k) A)).
  { apply Forall_forall. intros p Hp. by apply list_elem_of_filter in Hp as [? _]. }
  revert HA.
  generalize (filter (λ p : time * cell, p.1 = k) A) as xs.
  generalize (filter (λ p : time * cell, p.1 = k) B) as ys.
  intros ys xs HA.
  destruct ys as [|y ys].
  - destruct xs as [|x xs]; [done|].
    simpl. rewrite <-!list_fmap_compose.
    inversion HA as [|?? Hx HA']; subst.
    f_equal. apply Forall_fmap_ext. eapply Forall_impl; [exact HA'|].
    intros p Hp. simpl. by rewrite Hp.
  - destruct xs as [|x xs].
    + simpl. rewrite <-!list_fmap_compose. done.
    + remember (y :: ys) as ys' eqn:Hys. remember (x :: xs) as xs' eqn:Hxs.
      assert (paired (xs'.*2) (ys'.*2)
              = p ← xs'.*2; (λ q, (p, q)) <$> ys'.*2) as ->.
      { subst. done. }
      assert (match (λ p, (p.1, [CTime p.1; p.2])) <$> xs',
                    (λ p, (p.1, [p.2])) <$> ys' with
              | _, [] => (λ x, x.2 ++ replicate 1 CNaN) <$>
                           ((λ p, (p.1, [CTime p.1; p.2])) <$> xs')
              | [], _ => (λ y, <[0%nat := CTime k]> (replicate 2 CNaN) ++ y.2) <$>
                           ((λ p, (p.1, [p.2])) <$> ys')
              | _, _ => x ← (λ p, (p.1, [CTime p.1; p.2])) <$> xs';
                        (λ y, x.2 ++ y.2) <$>
                          ((λ p, (p.1, [p.2])) <$> ys')
              end
              = x ← (λ p, (p.1, [CTime p.1; p.2])) <$> xs';
                (λ y, x.2 ++ y.2) <$>
                  ((λ p, (p.1, [p.2])) <$> ys')) as ->.
      { subst. done. }
      clear Hys Hxs.
      induction HA as [|p xs' Hp HA IH]; [done|].
      rewrite !fmap_cons, !bind_cons, fmap_app, IH.
      f_equal. simpl. rewrite <-!list_fmap_compose.
      apply list_fmap_ext. intros i q _. simpl. by rewrite Hp.
Qed.

Lemma bind_ext_eq {X Y} (f g : X → list Y) (l : list X) :
  (∀ x, f x = g x) → l ≫= f = l ≫= g.
Proof.
  intros Hfg. induction l as [|x l IH]; [done|].
  by rewrite !bind_cons, Hfg, IH.
Qed.

Lemma fst_keyed {X} (f : time * cell → X) (pts : list (time * cell)) :
  ((λ p, (p.1, f p)) <$> pts).*1 = pts.*1.
Proof. induction pts as [|p pts IH]; [done|]. csimpl. by rewrite IH. Qed.

Lemma drop_key_series (pts : list (time * cell)) :
  (λ y : time * list cell, (y.1, delete 0%nat y.2))
    <$> ((λ p, (p.1, [CTime p.1; p.2])) <$> pts)
  = (λ p, (p.1, [p.2])) <$> pts.
Proof. induction pts as [|p pts IH]; [done|]. csimpl. by rewrite IH. Qed.

Lemma string_length_append (s t : string) :
  String.length (s +:+ t) = (String.length s + String.length t)%nat.
Proof.
  induction s as [|a s IH]; [done|].
  change (String a s +:+ t) with (String a (s +:+ t)).
  simpl. by rewrite IH.
Qed.

Lemma time_not_suffixed (v : string) : "Time" ≠ v +:+ "_x".
Proof.
  intros Heq. pose proof (f_equal String.length Heq) as Hl.
  rewrite string_length_append in Hl. simpl in Hl.
  destruct v as [|a [|b [|c v]]]; simpl in Hl; try lia.
  vm_compute in Heq. discriminate.
Qed.

(** The join of the frames of two series, neither of them called
    "Time": the columns are [Time] and the two variable columns, and the
    rows are the joined rows of the points. *)
Lemma merge_series_frames (A B : TimeSeries) :
  variable A ≠ "Time" → variable B ≠ "Time" →
  merge (series_frame A) (series_frame B)
  = Ret {| columns := "Time" :: merged_labels (variable A) (variable B);
           rows := joined_rows (points A) (points B) |}.
Proof.
  intros HA HB.
  assert (Hrows : outer_join 0 2 1
            ((λ p, (p.1, [CTime p.1; p.2])) <$> points A)
            ((λ y : time * list cell, (y.1, delete 0%nat y.2))
               <$> ((λ p, (p.1, [CTime p.1; p.2])) <$> points B))
          = joined_rows (points A) (points B)).
  { unfold outer_join, joined_rows.
    rewrite drop_key_series, !fst_keyed.
    apply bind_ext_eq. intros k.
    apply (join_group_series (points A) (points B) k). }
  unfold merge, series_frame, merged_labels. simpl.
  rewrite !mapM_keyed_series.
  destruct (decide (variable A = variable B)) as [Heq|Hne].
  - rewrite (bool_decide_eq_true_2 _ Heq).
    assert (filter (λ c : string, c ∈ [variable B]) ["Time"; variable A]
            = [variable A]) as ->.
    { rewrite !filter_cons, filter_nil.
      rewrite decide_False by (rewrite list_elem_of_singleton; done).
      by rewrite decide_True by (by rewrite list_elem_of_singleton). }
    unfold relabel.
    rewrite (bool_decide_eq_false_2 ("Time" ∈ [variable A]))
      by (rewrite list_elem_of_singleton; done).
    rewrite (bool_decide_eq_true_2 (variable A ∈ [variable A]))
      by (by rewrite list_elem_of_singleton).
    rewrite (bool_decide_eq_true_2 (variable B ∈ [variable A]))
      by (by rewrite list_elem_of_singleton).
    rewrite bool_decide_eq_true_2.
    2:{ apply NoDup_cons. split; [|apply NoDup_singleton].
        rewrite list_elem_of_singleton. apply time_not_suffixed. }
    simpl. by rewrite Hrows.
  - rewrite (bool_decide_eq_false_2 _ Hne).
    assert (filter (λ c : string, c ∈ [variable B]) ["Time"; variable A]
            = []) as ->.
    { rewrite !filter_cons, filter_nil.
      rewrite !decide_False; [done| |]; rewrite list_elem_of_singleton; done. }
    unfold relabel.
    rewrite !(bool_decide_eq_false_2 (_ ∈ [])) by (apply not_elem_of_nil).
    rewrite bool_decide_eq_true_2.
    2:{ apply NoDup_cons. split; [rewrite list_elem_of_singleton; done|].
        apply NoDup_singleton. }
    simpl. by rewrite Hrows.
Qed.

(** *** The join does not depend on the order of its sides *)

Lemma bind_cons_fmap {X Y} (g : X → Y) (h : X → list Y) (l : list X) :
  (x ← l; g x :: h x) ≡ₚ (g <$> l) ++ (l ≫= h).
Proof.
  induction l as [|x l IH]; [done|].
  rewrite fmap_cons, !bind_cons, IH. simpl. constructor.
  rewrite !(assoc_L (++)). f_equiv. apply Permutation_app_comm.
Qed.

Lemma bind_product_swap {X Y Z} (f : X → Y → Z) (xs : list X) (ys : list Y) :
  (x ← xs; f x <$> ys) ≡ₚ (y ← ys; (λ x, f x y) <$> xs).
Proof.
  induction xs as [|x xs IH].
  - simpl. induction ys as [|y ys IHy]; [done|]. by rewrite bind_cons.
  - rewrite bind_cons, IH.
    rewrite <-(bind_cons_fmap (f x) (λ y, (λ x, f x y) <$> xs) ys).
    apply reflexive_eq, bind_ext_eq. intros y. by rewrite fmap_cons.
Qed.

Lemma paired_swap (xs ys : list cell) :
  paired ys xs ≡ₚ prod_swap <$> paired xs ys.
Proof.
  destruct xs as [|x xs], ys as [|y ys].
  - done.
  - unfold paired. rewrite <-list_fmap_compose. done.
  - unfold paired. rewrite <-list_fmap_compose. done.
  - remember (x :: xs) as xs'. remember (y :: ys) as ys'.
    assert (paired ys' xs' = b ← ys'; (λ a, (b, a)) <$> xs') as ->
      by (subst; done).
    assert (paired xs' ys' = a ← xs'; (λ b, (a, b)) <$> ys') as ->
      by (subst; done).
    rewrite (bind_product_swap (λ b a, (b, a)) ys' xs').
    clear. induction xs' as [|a xs' IH]; [done|].
    rewrite !bind_cons, fmap_app, <-IH, <-list_fmap_compose. done.
Qed.

Lemma join_keys_swap (l r : list time) : join_keys l r ≡ₚ join_keys r l.
Proof.
  unfold join_keys. rewrite !merge_sort_Permutation.
  apply NoDup_Permutation; [apply NoDup_remove_dups..|].
  intros k. rewrite !elem_of_remove_dups, !elem_of_app. tauto.
Qed.

Lemma record_of_swap (va vb : string) (k : time) (a b : cell) :
  va ≠ vb →
  record_of ["Time"; vb; va] [CTime k; b; a]
  = record_of ["Time"; va; vb] [CTime k; a; b].
Proof.
  intros Hne. unfold record_of. simpl. f_equal.
  by apply insert_insert_ne.
Qed.

Lemma fmap_bind_list {X Y Z} (g : Y → Z) (f : X → list Y) (l : list X) :
  g <$> (l ≫= f) = l ≫= (λ x, g <$> f x).
Proof.
  induction l as [|x l IH]; [done|].
  by rewrite !bind_cons, fmap_app, IH.
Qed.

Lemma bind_perm_pointwise {X Y} (f g : X → list Y) (l : list X) :
  (∀ x, f x ≡ₚ g x) → l ≫= f ≡ₚ l ≫= g.
Proof.
  intros Hfg. induction l as [|x l IH]; [done|].
  by rewrite !bind_cons, Hfg, IH.
Qed.

(** The records of the joined rows are the same whichever side comes
    first. *)
Lemma joined_records_swap (va vb : string) (A B : list (time * cell)) :
  va ≠ vb →
  record_of ["Time"; va; vb] <$> joined_rows A B
  ≡ₚ record_of ["Time"; vb; va] <$> joined_rows B A.
Proof.
  intros Hne. unfold joined_rows. rewrite !fmap_bind_list.
  rewrite (join_keys_swap A.*1 B.*1).
  apply bind_perm_pointwise. intros k.
  rewrite (paired_swap (values_at A k) (values_at B k)).
  rewrite <-!list_fmap_compose.
  apply reflexive_eq, list_fmap_ext. intros i [a b] _. simpl.
  symmetry. by apply record_of_swap.
Qed.

Lemma df_empty_series_frame (S : TimeSeries) :
  df_empty (series_frame S) = bool_decide (points S = []).
Proof. unfold df_empty, series_frame. simpl. by destruct (points S). Qed.

Lemma merge_series_pair (A B : TimeSeries) :
  variable A ≠ "Time" → variable B ≠ "Time" →
  merge_series [A; B] empty_frame
  = if bool_decide (points A = []) || bool_decide (points B = [])
    then Ret (error_frame "No valid data available.")
    else Ret {| columns := "Time" :: merged_labels (variable A) (variable B);
                rows := joined_rows (points A) (points B) |}.
Proof.
  intros HA HB. cbn [merge_series].
  rewrite !df_empty_series_frame.
  destruct (bool_decide (points A = [])) eqn:HAe; [done|].
  change (merge_into empty_frame (series_frame A)) with (Ret (series_frame A)).
  cbn [mbind pyres_bind].
  destruct (bool_decide (points B = [])) eqn:HBe; [done|].
  unfold merge_into. rewrite df_empty_series_frame, HAe.
  by rewrite (merge_series_frames A B HA HB).
Qed.

(** C4: merging the frames of two series in one order or the other
    gives the same table up to the order of columns: the same column
    labels and the same rows read as records from labels to cells,
    hence the same value in every (Time, variable) cell. *)
Theorem merge_order_insensitive (A B : TimeSeries) :
  one_series_per_variable A B →
  same_table (merge_series [A; B] empty_frame)
             (merge_series [B; A] empty_frame).
Proof.
  intros (HA & HB & Hone).
  destruct (decide (variable A = variable B)) as [Heq|Hne].
  - rewrite <-(Hone Heq). rewrite (merge_series_pair A A HA HA).
    destruct (_ || _); eexists _, _; done.
  - rewrite (merge_series_pair A B HA HB), (merge_series_pair B A HB HA).
    rewrite (orb_comm (bool_decide (points B = []))).
    destruct (_ || _).
    + by exists (error_frame "No valid data available."),
                (error_frame "No valid data available.").
    + eexists _, _. split; [reflexivity|]. split; [reflexivity|].
      unfold merged_labels.
      rewrite !bool_decide_eq_false_2 by done. split.
      * simpl. constructor. apply perm_swap.
      * unfold records. simpl. by apply joined_records_swap.
Qed.

Lemma merge_order_insensitive_witness :
  same_table (merge_series [series_air_temp; series_soil_temp] empty_frame)
             (merge_series [series_soil_temp; series_air_temp] empty_frame).
Proof.
  apply merge_order_insensitive.
  repeat split; vm_compute; discriminate.
Defined.

(** *** One row per timestamp *)

Lemma values_at_not_elem (pts : list (time * cell)) (k : time) :
  k ∉ pts.*1 → values_at pts k = [] ∧ value_at pts k = CNaN.
Proof.
  unfold values_at. induction pts as [|p pts IH]; [done|].
  rewrite fmap_cons, not_elem_of_cons. intros [Hne Hk].
  rewrite filter_cons, decide_False by done. simpl.
  rewrite bool_decide_eq_false_2 by done. by apply IH.
Qed.

Lemma values_at_elem (pts : list (time * cell)) (k : time) :
  NoDup pts.*1 → k ∈ pts.*1 → values_at pts k = [value_at pts k].
Proof.
  unfold values_at. induction pts as [|p pts IH]; [by rewrite elem_of_nil|].
  rewrite fmap_cons, NoDup_cons, elem_of_cons. intros [Hp Hnd] Hk.
  rewrite filter_cons. simpl. case_decide as Hpk.
  - rewrite bool_decide_eq_true_2 by done. subst k.
    destruct (values_at_not_elem pts p.1 Hp) as [Hnil _].
    unfold values_at in Hnil. by rewrite fmap_cons, Hnil.
  - rewrite bool_decide_eq_false_2 by done.
    destruct Hk as [->|Hk]; [done|]. by apply IH.
Qed.

Lemma elem_of_join_keys (l r : list time) (k : time) :
  k ∈ join_keys l r ↔ k ∈ l ∨ k ∈ r.
Proof.
  unfold join_keys.
  by rewrite merge_sort_Permutation, elem_of_remove_dups, elem_of_app.
Qed.

Lemma length_join_keys (l r : list time) :
  length (join_keys l r)
  = size (list_to_set l ∪ list_to_set r : gset time).
Proof.
  unfold join_keys. rewrite merge_sort_Permutation.
  rewrite <-list_to_set_app_L.
  rewrite <-(size_list_to_set (C:=gset time) (remove_dups (l ++ r)))
    by apply NoDup_remove_dups.
  f_equal. apply set_eq. intros k.
  by rewrite !elem_of_list_to_set, elem_of_remove_dups.
Qed.

(** Without repeated timestamps the join has one row per key, holding
    what each side observed at that key. *)
Lemma joined_rows_distinct (A B : list (time * cell)) :
  NoDup A.*1 → NoDup B.*1 →
  joined_rows A B
  = (λ k, [CTime k; value_at A k; value_at B k]) <$> join_keys A.*1 B.*1.
Proof.
  intros HA HB. unfold joined_rows.
  assert (Hkeys : Forall (λ k, k ∈ A.*1 ∨ k ∈ B.*1) (join_keys A.*1 B.*1)).
  { apply Forall_forall. intros k. by rewrite elem_of_join_keys. }
  induction Hkeys as [|k keys Hk _ IH]; [done|].
  rewrite bind_cons, fmap_cons, IH. clear IH.
  change (?x :: ?l) with ([x] ++ l). f_equal.
  destruct (decide (k ∈ A.*1)) as [HkA|HkA],
           (decide (k ∈ B.*1)) as [HkB|HkB].
  - by rewrite (values_at_elem A k), (values_at_elem B k).
  - destruct (values_at_not_elem B k HkB) as [-> ->].
    by rewrite (values_at_elem A k).
  - destruct (values_at_not_elem A k HkA) as [-> ->].
    by rewrite (values_at_elem B k).
  - tauto.
Qed.

(** C5, for series without repeated timestamps: the outer join of the
    frames of two series in which no timestamp occurs twice has exactly
    one row per timestamp of the union, holding under each variable the
    value the series observed at that timestamp and the missing marker
    where it observed none. *)
Theorem outer_join_union_rows (A B : TimeSeries) :
  variable A ≠ "Time" → variable B ≠ "Time" →
  NoDup (points A).*1 → NoDup (points B).*1 →
  ∃ f, merge (series_frame A) (series_frame B) = Ret f
    ∧ columns f = "Time" :: merged_labels (variable A) (variable B)
    ∧ length (rows f) = size (timestamps A ∪ timestamps B)
    ∧ (∀ row, row ∈ rows f ↔
         ∃ t, t ∈ timestamps A ∪ timestamps B
           ∧ row = [CTime t; value_at (points A) t; value_at (points B) t])
    ∧ (∀ t, t ∉ timestamps A → value_at (points A) t = CNaN)
    ∧ (∀ t, t ∉ timestamps B → value_at (points B) t = CNaN).
Proof.
  intros HAt HBt HA HB. eexists. split; [by apply merge_series_frames|].
  simpl. rewrite joined_rows_distinct by done.
  split; [done|]. split; [|split; [|split]].
  - rewrite length_fmap. apply length_join_keys.
  - intros row. rewrite list_elem_of_fmap. unfold timestamps.
    setoid_rewrite elem_of_join_keys.
    setoid_rewrite elem_of_union. setoid_rewrite elem_of_list_to_set.
    split; intros (t & H1 & H2); exists t; tauto.
  - intros t Ht. apply values_at_not_elem.
    by rewrite <-(elem_of_list_to_set (C:=gset time)).
  - intros t Ht. apply values_at_not_elem.
    by rewrite <-(elem_of_list_to_set (C:=gset time)).
Qed.

Lemma outer_join_union_rows_witness :
  ∃ f, merge (series_frame series_air_temp) (series_frame series_soil_temp)
       = Ret f
    ∧ length (rows f) = 3%nat
    ∧ [CTime (Some 1738801800000000000); CNaN; CVal (JNum 8)] ∈ rows f.
Proof.
  destruct (outer_join_union_rows series_air_temp series_soil_temp)
    as (f & Hf & _ & Hlen & Hrows & _).
  - vm_compute. discriminate.
  - vm_compute. discriminate.
  - compute_done.
  - compute_done.
  - exists f. split; [exact Hf|]. split.
    + rewrite Hlen. vm_compute. reflexivity.
    + apply Hrows. exists (Some 1738801800000000000). split; [|reflexivity].
      compute_done.
Defined.

(** C5 as stated fails: two series that both hold one timestamp twice
    join into four rows, while the union of their timestamp sets has a
    single element. *)
Lemma outer_join_repeated_timestamp :
  ∃ f, merge (series_frame series_air_temp_repeated)
             (series_frame series_soil_temp_repeated) = Ret f
    ∧ length (rows f) = 4%nat
    ∧ size (timestamps series_air_temp_repeated
            ∪ timestamps series_soil_temp_repeated) = 1%nat.
Proof.
  eexists. split; [vm_compute; reflexivity|]. split; vm_compute; reflexivity.
Qed.

(** ** A requested variable that the response does not hold *)

(** *** Frames built from aligned lists *)

Lemma transpose_time_column (times : list time) (col : list cell) :
  length col = length times →
  zip_with cons (CTime <$> times)
    (zip_with cons col (replicate (length times) []))
  = (λ p, [CTime p.1; p.2]) <$> zip times col.
Proof.
  revert col.
  induction times as [|t times IH]; intros [|c col] Hlen; try done.
  simpl in *. f_equal. apply IH. lia.
Qed.

(** The frame the table computation builds for one variable is the
    frame of the variable's series. *)
Lemma DataFrame_series (times : list time) (v : string) (values : list json) :
  v ≠ "Time" → length values = length times →
  DataFrame (dict_display [("Time", CTime <$> times);
                           (v, cell_of_json <$> values)])
  = Ret (series_frame (series_of times v values)).
Proof.
  intros Hv Hlen. unfold dict_display. simpl.
  case_bool_decide; [done|].
  unfold DataFrame. simpl. rewrite !length_fmap.
  rewrite bool_decide_eq_true_2 by done.
  rewrite bool_decide_eq_true_2 by done.
  simpl. unfold series_frame, series_of. simpl. do 2 f_equal.
  apply transpose_time_column. by rewrite length_fmap.
Qed.

Lemma time_keyed_series (S : TimeSeries) :
  time_keyed (series_frame S) [variable S].
Proof.
  split; [done|]. simpl. apply Forall_fmap, Forall_forall.
  intros p _. simpl. eauto.
Qed.

(** *** Joining a variable onto a table keyed by [Time] *)

Lemma mapM_keyed_time (rs : list (list cell)) :
  Forall (λ r, ∃ t rest, r = CTime t :: rest) rs →
  ∃ L, mapM (keyed 0) rs = Some L
       ∧ Forall (λ x : time * list cell, ∃ t rest, x.2 = CTime t :: rest) L.
Proof.
  induction 1 as [|r rs (t & rest & ->) _ (L & HL & HF)].
  - by exists [].
  - exists ((t, CTime t :: rest) :: L). split.
    + simpl. rewrite HL. done.
    + constructor; [simpl; eauto|done].
Qed.

Lemma relabel_no_overlap (suffix : string) (names : list string) :
  relabel suffix [] <$> names = names.
Proof.
  induction names as [|x names IH]; [done|].
  rewrite fmap_cons, IH. unfold relabel.
  by rewrite bool_decide_eq_false_2 by apply not_elem_of_nil.
Qed.

Lemma filter_none {X} (P : X → Prop) `{!∀ x, Decision (P x)} (l : list X) :
  Forall (λ x, ¬ P x) l → filter P l = [].
Proof.
  induction 1 as [|x l Hx _ IH]; [done|].
  by rewrite filter_cons, decide_False.
Qed.

Lemma join_group_time_keyed (nl nr : nat) (L R : list (time * list cell))
    (k : time) :
  Forall (λ x : time * list cell, ∃ t rest, x.2 = CTime t :: rest) L →
  Forall (λ r, ∃ t rest, r = CTime t :: rest)
         (join_group 0 (S nl) nr L R k).
Proof.
  intros HL. unfold join_group.
  assert (HLk : Forall (λ x : time * list cell, ∃ t rest, x.2 = CTime t :: rest)
                  (filter (λ x : time * list cell, x.1 = k) L)).
  { apply Forall_forall. intros x Hx.
    apply list_elem_of_filter in Hx as [_ Hx].
    rewrite Forall_forall in HL. by apply HL. }
  revert HLk. generalize (filter (λ x : time * list cell, x.1 = k) L) as xs.
  generalize (filter (λ y : time * list cell, y.1 = k) R) as ys.
  intros ys xs Hxs.
  assert (Hleft : ∀ (g : time * list cell → list cell),
            Forall (λ r, ∃ t rest, r = CTime t :: rest)
                   ((λ x, x.2 ++ g x) <$> xs)).
  { intros g. apply Forall_fmap. eapply Forall_impl; [exact Hxs|].
    intros x (t & rest & Hx). simpl. rewrite Hx. simpl. eauto. }
  destruct ys as [|y ys].
  - destruct xs; apply (Hleft (λ _, replicate nr CNaN)).
  - destruct xs as [|x xs].
    + apply Forall_fmap, Forall_forall. intros y' _. simpl. eauto.
    + remember (y :: ys) as ys'. clear Heqys' Hleft.
      remember (x :: xs) as xs'. clear Heqxs'.
      induction Hxs as [|x' xs' (t & rest & Hx) _ IH]; [constructor|].
      rewrite bind_cons. apply Forall_app. split; [|exact IH].
      apply Forall_fmap, Forall_forall. intros y' _. simpl.
      rewrite Hx. simpl. eauto.
Qed.

Lemma merge_time_keyed (master : frame) (names : list string)
    (S : TimeSeries) :
  time_keyed master names →
  NoDup ("Time" :: names ++ [variable S]) →
  ∃ master', merge master (series_frame S) = Ret master'
             ∧ time_keyed master' (names ++ [variable S]).
Proof.
  intros [Hcols Hrows] Hnd.
  apply NoDup_cons in Hnd as [Htime Hnd].
  apply NoDup_app in Hnd as (Hnames & Hfresh & _).
  rewrite elem_of_app, list_elem_of_singleton in Htime.
  destruct (mapM_keyed_time _ Hrows) as (L & HL & HLk).
  unfold merge. rewrite Hcols. simpl.
  rewrite HL, mapM_keyed_series.
  assert (filter (λ c : string, c ∈ [variable S]) ("Time" :: names) = [])
    as ->.
  { apply filter_none. constructor.
    - rewrite list_elem_of_singleton. intros Heq. tauto.
    - apply Forall_forall. intros x Hx. rewrite list_elem_of_singleton.
      intros ->. apply (Hfresh (variable S)); [done|].
      by apply list_elem_of_singleton. }
  rewrite relabel_no_overlap. unfold relabel.
  rewrite !(bool_decide_eq_false_2 (_ ∈ [])) by apply not_elem_of_nil.
  rewrite bool_decide_eq_true_2.
  2:{ apply NoDup_cons. split; [tauto|done]. }
  simpl. eexists. split; [reflexivity|]. split.
  - simpl. done.
  - simpl. unfold outer_join. apply Forall_bind, Forall_forall.
    intros k _. by apply join_group_time_keyed.
Qed.

(** *** The table computation stops at the first missing variable *)

Section MissingVariable.
Context (parse_entry : list json → json → ts_parse).
Context (obs : gmap string json) (entries : list json).
Hypothesis Hdate_time : obs !! "date_time" = Some (JArr entries).
Hypothesis Hentries : entries ≠ [].

Lemma variable_data_loop_missing (pre post : list string) (v : string)
    (df_master : frame) (names : list string) :
  df_empty df_master = true ∨ time_keyed df_master names →
  NoDup ("Time" :: names ++ pre) →
  Forall (present obs) pre →
  Forall (aligned obs (length entries)) pre →
  ¬ present obs v →
  variable_data_loop parse_entry (JObj obs) (pre ++ v :: post) df_master
  = Ret (error_frame ("Variable '" +:+ (v +:+ "_set_1")
                        +:+ "' not found in API response.")).
Proof.
  intros Hmaster Hnd Hpre Hal Hv.
  revert df_master names Hmaster Hnd.
  induction pre as [|u pre IH]; intros df_master names Hmaster Hnd.
  - simpl. by rewrite bool_decide_eq_false_2.
  - apply Forall_cons in Hpre as [[x Hx] Hpre].
    apply Forall_cons in Hal as [Hu Hal].
    destruct (Hu x Hx) as (values & -> & Hlen).
    assert (Hut : u ≠ "Time").
    { intros ->. apply NoDup_cons in Hnd as [Hin _]. apply Hin.
      rewrite elem_of_app, elem_of_cons. tauto. }
    rewrite <-app_comm_cons. cbn [variable_data_loop].
    simpl py_in. rewrite bool_decide_eq_true_2 by (by rewrite Hx).
    py_step. cbn [py_get]. rewrite Hdate_time, Hx. simpl default.
    py_step. rewrite to_datetime_coerce_total.
    py_step. cbn [cells_of_json]. py_step.
    rewrite (DataFrame_series _ u values Hut)
      by (by rewrite length_coerced_times).
    cbn [mbind pyres_bind].
    set (S := series_of (coerced_times parse_entry entries) u values).
    assert (HS : df_empty (series_frame S) = false).
    { rewrite df_empty_series_frame. apply bool_decide_eq_false_2.
      unfold S, series_of, coerced_times. simpl.
      destruct entries, values; done. }
    rewrite HS.
    assert (∃ master' names',
               merge_into df_master (series_frame S) = Ret master'
               ∧ time_keyed master' names'
               ∧ NoDup ("Time" :: names' ++ pre))
      as (master' & names' & -> & Hkeyed & Hnd').
    { unfold merge_into.
      apply NoDup_cons in Hnd as [Htime Hnd].
      rewrite elem_of_app, elem_of_cons in Htime.
      apply NoDup_app in Hnd as (Hnames & Hdisj & Hupre).
      apply NoDup_cons in Hupre as [Hu_pre Hpre_nd].
      destruct (df_empty df_master) eqn:Hempty.
      - exists (series_frame S), [u]. split; [done|].
        split; [apply time_keyed_series|].
        simpl. apply NoDup_cons. split.
        + rewrite elem_of_cons. tauto.
        + by apply NoDup_cons.
      - destruct Hmaster as [?|Hkeyed]; [done|].
        destruct (merge_time_keyed df_master names S Hkeyed)
          as (master' & Hm & Hk').
        { apply NoDup_cons. split.
          - rewrite elem_of_app, list_elem_of_singleton. tauto.
          - apply NoDup_app. split; [done|]. split; [|apply NoDup_singleton].
            intros y Hy ->%list_elem_of_singleton.
            apply (Hdisj u Hy). by left. }
        exists master', (names ++ [u]). split; [done|]. split; [done|].
        apply NoDup_cons. split.
        + rewrite !elem_of_app, list_elem_of_singleton. tauto.
        + rewrite <-(assoc_L (++)). simpl. apply NoDup_app.
          split; [done|]. split; [done|]. by apply NoDup_cons. }
    cbn [mbind pyres_bind].
    apply (IH Hpre Hal master' names'); [by right|done].
Qed.

End MissingVariable.

(** *** The plot computation skips the missing variables *)

Lemma parsed_data_loop_present (obs : gmap string json)
    (entries : list json) (vars : list string) (df : frame)
    (names : list string) :
  columns df = "Time" :: names →
  length (rows df) = length entries →
  NoDup ("Time" :: names ++ vars) →
  Forall (aligned obs (length entries)) vars →
  ∃ df', parsed_data_loop obs vars df = Ret df'
         ∧ columns df' = "Time" :: names ++ filter (present obs) vars
         ∧ length (rows df') = length entries.
Proof.
  revert df names.
  induction vars as [|u vars IH]; intros df names Hcols Hrows Hnd Hal.
  - exists df. by rewrite filter_nil, app_nil_r.
  - apply Forall_cons in Hal as [Hu Hal].
    cbn [parsed_data_loop].
    destruct (obs !! (u +:+ "_set_1")) as [x|] eqn:Hx.
    + destruct (Hu x Hx) as (values & -> & Hlen).
      rewrite filter_cons, decide_True by (unfold present; by rewrite Hx).
      cbn [cells_of_json mbind pyres_bind].
      unfold setitem. rewrite length_fmap, Hlen, Hrows.
      rewrite bool_decide_eq_true_2 by done.
      assert (index_of u (columns df) = None) as ->.
      { rewrite Hcols.
        apply NoDup_cons in Hnd as [Htime Hnd].
        rewrite elem_of_app, elem_of_cons in Htime.
        apply NoDup_app in Hnd as (_ & Hdisj & _).
        simpl. rewrite bool_decide_eq_false_2 by (intros <-; tauto).
        assert (Hu_names : u ∉ names).
        { intros Hin. apply (Hdisj u Hin). by left. }
        clear -Hu_names. induction names as [|y names IHn]; [done|].
        apply not_elem_of_cons in Hu_names as [Hne Hu_names].
        simpl. rewrite bool_decide_eq_false_2 by done.
        by rewrite IHn. }
      cbn [mbind pyres_bind].
      destruct (IH {| columns := columns df ++ [u];
                      rows := zip_with (λ r c, r ++ [c]) (rows df)
                                (cell_of_json <$> values) |}
                   (names ++ [u]))
        as (df' & Hloop & Hcols' & Hrows').
      * simpl. by rewrite Hcols.
      * simpl. rewrite length_zip_with, length_fmap. lia.
      * by rewrite <-(assoc_L (++)).
      * done.
      * exists df'. split; [done|]. split; [|done].
        by rewrite Hcols', <-(assoc_L (++)).
    + rewrite filter_cons, decide_False
        by (unfold present; rewrite Hx; by intros [? ?]).
      apply (IH df names); [done|done| |done].
      apply NoDup_cons in Hnd as [Htime Hnd].
      rewrite elem_of_app, elem_of_cons in Htime.
      apply NoDup_cons. split; [rewrite elem_of_app; tauto|].
      apply NoDup_app in Hnd as (Hnames & Hdisj & Hvars).
      apply NoDup_cons in Hvars as [_ Hvars].
      apply NoDup_app. split; [done|]. split; [|done].
      intros y Hy Hin. apply (Hdisj y Hy). by right.
Qed.

Lemma filter_all {X} (P : X → Prop) `{!∀ x, Decision (P x)} (l : list X) :
  Forall P l → filter P l = l.
Proof.
  induction 1 as [|x l Hx _ IH]; [done|].
  by rewrite filter_cons, decide_True, IH.
Qed.

Lemma DataFrame_time_only (col : list cell) :
  DataFrame (dict_display [("Time", col)])
  = Ret {| columns := ["Time"]; rows := (λ c, [c]) <$> col |}.
Proof.
  unfold dict_display, DataFrame. simpl.
  rewrite bool_decide_eq_true_2 by done. simpl. do 2 f_equal.
  unfold transpose. simpl. induction col as [|c col IH]; [done|].
  simpl. by rewrite IH.
Qed.

(** C1, as the two computations implement it: when the response is
    otherwise well formed and [v] is the first requested variable it
    does not hold, the table computation returns the one-row "variable
    not found" diagnostic and no data, whereas the plot computation
    does not stop: it leaves the missing variables out and plots the
    requested variables the response holds, under the axis policy. *)
Theorem missing_variable_outcomes (parse_entry : list json → json → ts_parse)
    (s : session) (reason : string) (data : json)
    (obs : gmap string json) (entries : list json)
    (pre post : list string) (v : string) :
  request_url s ≠ "" →
  http s {| get_url := request_url s; get_timeout := None |}
    = GetResponse 200 reason (BodyJson data) →
  carries data obs →
  requested_vars (input_vars s) = pre ++ v :: post →
  well_formed parse_entry obs (pre ++ v :: post) entries →
  Forall (present obs) pre →
  ¬ present obs v →
  variable_data_output parse_entry s
  = Ret (error_frame ("Variable '" +:+ (v +:+ "_set_1")
                        +:+ "' not found in API response."))
  ∧ weather_plot parse_entry s
    = Ret (plot_of_columns (filter (present obs) (pre ++ v :: post))).
Proof.
  intros Hurl Hresp Hcarries Hvars [Hdt Hne Hparse Hal Hnd] Hpre Hv.
  assert (Hobs_ne : obs ≠ ∅).
  { intros ->. by rewrite lookup_empty in Hdt. }
  split.
  - rewrite (variable_data_output_on_document parse_entry s reason data obs)
      by done.
    rewrite Hvars.
    rewrite (variable_data_loop_missing parse_entry obs entries Hdt Hne
               pre post v empty_frame []); try done.
    + by left.
    + change ("Time" :: pre ++ v :: post)
        with (("Time" :: pre) ++ v :: post) in Hnd.
      by apply NoDup_app in Hnd as [? _].
    + by apply Forall_app in Hal as [? _].
  - unfold weather_plot.
    rewrite (parsed_data_on_document parse_entry s reason data obs) by done.
    simpl py_get. rewrite Hdt. simpl default. py_step.
    rewrite (to_datetime_raise_valid parse_entry entries Hparse).
    py_step. rewrite Hvars, DataFrame_time_only. py_step.
    destruct (parsed_data_loop_present obs entries
                (pre ++ v :: post)
                {| columns := ["Time"];
                   rows := (λ c, [c])
                             <$> (CTime <$> (coerced_times parse_entry entries)) |}
                [])
      as (df & Hloop & Hcols & Hrows); try done.
    { cbn [rows]. by rewrite !length_fmap, length_coerced_times. }
    rewrite Hloop.
    change (Ret (weather_plot_of (Some df))
            = Ret (plot_of_columns (filter (present obs) (pre ++ v :: post)))).
    f_equal.
    rewrite weather_plot_of_selected.
    2:{ unfold df_empty. rewrite Hcols.
        rewrite bool_decide_eq_false_2 by done.
        apply bool_decide_eq_false_2. intros Hr. rewrite Hr in Hrows.
        by destruct entries. }
    rewrite Hcols. simpl.
    rewrite filter_cons, decide_False by (by intros ?).
    f_equal. apply filter_all, Forall_forall.
    intros x Hx ->. apply list_elem_of_filter in Hx as [_ Hx].
    by apply NoDup_cons in Hnd as [? _].
Qed.

Lemma missing_variable_outcomes_witness :
  variable_data_output Iso.entry session_missing_variable
  = Ret (error_frame
           "Variable 'soil_moisture_set_1' not found in API response.")
  ∧ weather_plot Iso.entry session_missing_variable
    = Ret (FigSingleAxis "air_temp").
Proof.
  apply (missing_variable_outcomes Iso.entry session_missing_variable "OK"
           (station_doc
              [ ("date_time", JArr [JStr "2025-02-06T00:00:00Z";
                                    JStr "2025-02-06T00:15:00Z"]);
                ("air_temp_set_1", JArr [JNum 3; JNum 4]) ])
           observations_missing_variable
           [JStr "2025-02-06T00:00:00Z"; JStr "2025-02-06T00:15:00Z"]
           ["air_temp"] [] "soil_moisture").
  - vm_compute. discriminate.
  - reflexivity.
  - eexists _, _, []. split; [reflexivity|].
    split; [vm_compute; reflexivity|].
    split; vm_compute; reflexivity.
  - vm_compute. reflexivity.
  - split.
    + vm_compute. reflexivity.
    + discriminate.
    + repeat constructor; vm_compute; discriminate.
    + repeat constructor; intros x Hx; vm_compute in Hx.
      * injection Hx as <-. by exists [JNum 3; JNum 4].
      * discriminate.
    + compute_done.
  - repeat constructor. vm_compute. eexists. reflexivity.
  - vm_compute. intros [x Hx]. discriminate.
Defined.

(** C1 as stated fails on the plot: with a selected variable missing
    from the response, the table is the diagnostic while the plot is
    no diagnostic text: it draws the variable the response holds. *)
Lemma plot_draws_present_variable :
  variable_data_output Iso.entry session_missing_variable
  = Ret (error_frame
           "Variable 'soil_moisture_set_1' not found in API response.")
  ∧ weather_plot Iso.entry session_missing_variable
    = Ret (FigSingleAxis "air_temp")
  ∧ ∀ msg, weather_plot Iso.entry session_missing_variable
           ≠ Ret (FigText msg).
Proof.
  split; [vm_compute; reflexivity|].
  assert (H : weather_plot Iso.entry session_missing_variable
              = Ret (FigSingleAxis "air_temp")) by (vm_compute; reflexivity).
  split; [exact H|]. intros msg. rewrite H. discriminate.
Qed.

(** ** The table computation accumulates by [merge_series] *)

(** When the response holds every requested variable as a list aligned
    with [date_time], the loop of the table computation is the
    accumulation of the variables' series. *)
Lemma variable_data_loop_merge_series (parse_entry : list json → json → ts_parse)
    (obs : gmap string json) (entries : list json)
    (vars : list string) (df_master : frame) :
  obs !! "date_time" = Some (JArr entries) →
  Forall (λ v, v ≠ "Time" ∧ present obs v
               ∧ aligned obs (length entries) v) vars →
  variable_data_loop parse_entry (JObj obs) vars df_master
  = merge_series (series_in parse_entry obs entries <$> vars) df_master.
Proof.
  intros Hdt Hvars. revert df_master.
  induction Hvars as [|u vars (Hut & [x Hx] & Hu) _ IH]; intros df_master.
  - done.
  - destruct (Hu x Hx) as (values & -> & Hlen).
    rewrite fmap_cons. cbn [variable_data_loop merge_series].
    simpl py_in. rewrite bool_decide_eq_true_2 by (by rewrite Hx).
    py_step. cbn [py_get]. rewrite Hdt, Hx. simpl default.
    py_step. rewrite to_datetime_coerce_total.
    py_step. cbn [cells_of_json]. py_step.
    rewrite (DataFrame_series _ u values Hut)
      by (by rewrite length_coerced_times).
    py_step.
    assert (series_in parse_entry obs entries u
            = series_of (coerced_times parse_entry entries) u values) as ->.
    { unfold series_in, values_of. by rewrite Hx. }
    destruct (df_empty (series_frame _)); [done|].
    destruct (merge_into df_master _) as [master'| |]; try done.
    apply IH.
Qed.

(** Two entries that both coerce to the missing-timestamp marker are
    one repeated timestamp: the table of two variables then has four
    rows. *)
Example table_rows_on_repeated_marker :
  ∃ f, variable_data_output Iso.entry session_two_invalid_timestamps = Ret f
    ∧ columns f = ["Time"; "air_temp"; "soil_temp"]
    ∧ rows f = [ [CTime None; CVal (JNum 3); CVal (JNum 7)];
                 [CTime None; CVal (JNum 3); CVal (JNum 8)];
                 [CTime None; CVal (JNum 4); CVal (JNum 7)];
                 [CTime None; CVal (JNum 4); CVal (JNum 8)] ].
Proof. eexists. split; [vm_compute; reflexivity|]. split; reflexivity. Qed.
